(** * Birth-registration service: rate limiter, validator, record store, handlers

    A shallow embedding of [main.py] and the properties of its request
    admission and data-integrity layer.

    Conventions of the embedding:
    - a Python [str] is the list of its Unicode code points ([pystr]); the
      literals of the source are written as they stand and decoded from UTF-8;
    - a Python [int] is a [Z]; a Python [float], such as the reading of
      [time.time()], is a binary64 float;
    - a [dict] is a [gmap]; the table [births] is the list of its rows in
      rowid order, together with the AUTOINCREMENT high-water mark;
    - an operation that can raise returns [exn + _]; state is passed
      explicitly. Clock readings ([time.time()], [datetime.now()]) are inputs. *)

From Stdlib Require Import ZArith List String Ascii Bool Lia.
From Corelib Require Import PrimFloat SpecFloat FloatOps.
From stdpp Require Import gmap strings.
Import ListNotations.

Open Scope Z_scope.

(** ** Python strings *)

(** A code point. *)
Definition char := Z.
Definition pystr := list char.

(** Decoding of a UTF-8 byte sequence (1 to 4 bytes per code point). *)
Fixpoint utf8_decode (bs : list Z) : pystr :=
  match bs with
  | [] => []
  | b0 :: r =>
    if b0 <? 128 then b0 :: utf8_decode r
    else match r with
    | [] => []
    | b1 :: r1 =>
      if b0 <? 224 then (b0 mod 32 * 64 + b1 mod 64) :: utf8_decode r1
      else match r1 with
      | [] => []
      | b2 :: r2 =>
        if b0 <? 240 then
          ((b0 mod 16 * 64 + b1 mod 64) * 64 + b2 mod 64) :: utf8_decode r2
        else match r2 with
        | [] => []
        | b3 :: r3 =>
          (((b0 mod 8 * 64 + b1 mod 64) * 64 + b2 mod 64) * 64 + b3 mod 64)
            :: utf8_decode r3
        end
      end
    end
  end.

(** A literal of the source. *)
Definition py (s : string) : pystr :=
  utf8_decode (map (fun a => Z.of_N (N_of_ascii a)) (list_ascii_of_string s)).

(** [x in l] on a list of strings. *)
Definition pystr_in (s : pystr) (l : list pystr) : bool := bool_decide (s ∈ l).

(** Comparison of two texts, code point by code point; a proper prefix is
    smaller. This is the order of SQLite's default (BINARY) collation on TEXT
    values: the bytewise order of UTF-8 is the order of the code points. *)
Fixpoint text_compare (s t : pystr) : comparison :=
  match s, t with
  | [], [] => Eq
  | [], _ :: _ => Lt
  | _ :: _, [] => Gt
  | a :: s', b :: t' =>
    match a ?= b with
    | Eq => text_compare s' t'
    | c => c
    end
  end.

Definition text_ltb (s t : pystr) : bool :=
  match text_compare s t with Lt => true | _ => false end.

(** [n] in decimal on exactly [w] digits, zero padded: ["%0wd" % n]
    for [0 <= n < 10^w]. *)
Fixpoint dec (w : nat) (n : Z) : pystr :=
  match w with
  | O => []
  | S w' => dec w' (n / 10) ++ [48 + n mod 10]
  end.

(** [str(n)] for a non-negative [int]: its decimal digits, no padding. *)
Fixpoint digits_of (fuel : nat) (n : Z) (acc : pystr) : pystr :=
  match fuel with
  | O => acc
  | S f =>
    let acc' := (48 + n mod 10) :: acc in
    if n <? 10 then acc' else digits_of f (n / 10) acc'
  end.

Definition str_of_int (n : Z) : pystr :=
  digits_of (S (Z.to_nat (Z.log2 n))) n [].

(** ** [datetime]: naive calendar date and time of day *)

Record datetime := {
  year : Z; month : Z; day : Z;
  hour : Z; minute : Z; second : Z; microsecond : Z
}.

Definition is_leap (y : Z) : bool :=
  (y mod 4 =? 0) && (negb (y mod 100 =? 0) || (y mod 400 =? 0)).

Definition days_in_month (y m : Z) : Z :=
  if m =? 2 then (if is_leap y then 29 else 28)
  else if (m =? 4) || (m =? 6) || (m =? 9) || (m =? 11) then 30
  else 31.

Definition between (lo x hi : Z) : bool := (lo <=? x) && (x <=? hi).

(** The field ranges the constructor of [datetime] enforces. *)
Definition valid_datetime (d : datetime) : bool :=
  between 1 (year d) 9999 && between 1 (month d) 12
  && between 1 (day d) (days_in_month (year d) (month d))
  && between 0 (hour d) 23 && between 0 (minute d) 59
  && between 0 (second d) 59 && between 0 (microsecond d) 999999.

(** Chronological order of naive datetimes: the order of their fields, most
    significant first. *)
Fixpoint fields_compare (l1 l2 : list Z) : comparison :=
  match l1, l2 with
  | a :: l1', b :: l2' =>
    match a ?= b with Eq => fields_compare l1' l2' | c => c end
  | _, _ => Eq
  end.

Definition fields (d : datetime) : list Z :=
  [year d; month d; day d; hour d; minute d; second d; microsecond d].

Definition datetime_compare (a b : datetime) : comparison :=
  fields_compare (fields a) (fields b).

Definition precedes (a b : datetime) : Prop := datetime_compare a b = Lt.

(** [datetime.isoformat()]: [YYYY-MM-DDTHH:MM:SS], followed by [.ffffff]
    when the microsecond field is not zero. *)
Definition fraction (us : Z) : pystr :=
  if us =? 0 then [] else py "." ++ dec 6 us.

Definition isoformat (d : datetime) : pystr :=
  dec 4 (year d) ++ py "-" ++ dec 2 (month d) ++ py "-" ++ dec 2 (day d)
  ++ py "T" ++ dec 2 (hour d) ++ py ":" ++ dec 2 (minute d)
  ++ py ":" ++ dec 2 (second d) ++ fraction (microsecond d).

(** The date [n] days before a date whose day field was lowered by [n]:
    borrow from the previous month while the day is below 1. *)
Fixpoint borrow (fuel : nat) (y m d : Z) : option (Z * Z * Z) :=
  if 1 <=? d then Some (y, m, d)
  else match fuel with
  | O => None
  | S f =>
    let y' := if m =? 1 then y - 1 else y in
    let m' := if m =? 1 then 12 else m - 1 in
    borrow f y' m' (d + days_in_month y' m')
  end.

(** [dt - timedelta(days=n)] for [0 <= n]; [None] is the [OverflowError]
    raised when the result falls before year 1. The time of day is kept. *)
Definition minus_days (dt : datetime) (n : Z) : option datetime :=
  match borrow (Z.to_nat n) (year dt) (month dt) (day dt - n) with
  | Some (y, m, d) =>
    if 1 <=? y then
      Some {| year := y; month := m; day := d; hour := hour dt;
              minute := minute dt; second := second dt;
              microsecond := microsecond dt |}
    else None
  | None => None
  end.

(** [date.toordinal()]: the number of the day in the proleptic Gregorian
    calendar, 1 for 1 January of year 1. The library defines the arithmetic
    of dates by it: [dt - timedelta(days=n)] is the date whose ordinal is
    [n] less than that of [dt], at the time of day of [dt]. *)
Definition days_before_year (y : Z) : Z :=
  let p := y - 1 in p * 365 + p / 4 - p / 100 + p / 400.

Definition DAYS_BEFORE_MONTH (m : Z) : Z :=
  match m with
  | 2 => 31 | 3 => 59 | 4 => 90 | 5 => 120 | 6 => 151 | 7 => 181
  | 8 => 212 | 9 => 243 | 10 => 273 | 11 => 304 | 12 => 334
  | _ => 0
  end.

Definition days_before_month (y m : Z) : Z :=
  DAYS_BEFORE_MONTH m + (if (2 <? m) && is_leap y then 1 else 0).

Definition ymd2ord (y m d : Z) : Z :=
  days_before_year y + days_before_month y m + d.

Definition toordinal (d : datetime) : Z :=
  ymd2ord (year d) (month d) (day d).

Definition time_of_day (d : datetime) : Z * Z * Z * Z :=
  (hour d, minute d, second d, microsecond d).

(** ** Validator: the model [BirthData]

    The constraints are those the class declares. Their meaning is that of
    the validation library: a [Literal] field takes one of its values and
    nothing else, [min_length] and [max_length] count characters, a required
    field must be present, and [pattern] is searched in the text by the
    regular-expression engine, for which [^] and [$] are the two ends of the
    text and [\d] is its class of decimal digits. That class is a parameter
    of the model ([is_digit]); every engine has the ASCII digits in it. *)

Module BirthData.
Record t := {
  father_id_type : pystr;
  father_id : Z;
  mother_id_type : pystr;
  mother_id : Z;
  mother_name : pystr;
  hospital_name : pystr;
  birth_date : pystr
}.
End BirthData.

(** The fields of a request body as the parsing layer hands them to the
    model: [None] stands for a field that is absent or whose value cannot be
    read at the declared Python type ([int], [str]). *)
Record RawBirthData := {
  raw_father_id_type : option pystr;
  raw_father_id : option Z;
  raw_mother_id_type : option pystr;
  raw_mother_id : option Z;
  raw_mother_name : option pystr;
  raw_hospital_name : option pystr;
  raw_birth_date : option pystr
}.

(** The two values of [Literal["رقم الموحدة", "رقم هوية الأحوال"]]. *)
Definition id_types : list pystr := [py "رقم الموحدة"; py "رقم هوية الأحوال"].

(** A pattern without alternation or star: a sequence of atoms, matched from
    the first character ([^]) to the last ([$]). *)
Inductive atom :=
| Digit
| Lit (c : char).

Fixpoint pattern_match (is_digit : char -> bool) (p : list atom) (s : pystr)
  : bool :=
  match p, s with
  | [], [] => true
  | Digit :: p', c :: s' => is_digit c && pattern_match is_digit p' s'
  | Lit a :: p', c :: s' => (a =? c) && pattern_match is_digit p' s'
  | _, _ => false
  end.

Definition hyphen : char := 45.

(** [^\d{4}-\d{2}-\d{2}$] *)
Definition birth_date_pattern : list atom :=
  repeat Digit 4 ++ [Lit hyphen] ++ repeat Digit 2 ++ [Lit hyphen]
  ++ repeat Digit 2.

(** The digit class of ASCII; the class [\d] of the regular-expression engine
    contains it. *)
Definition ascii_digit (c : char) : bool := between 48 c 57.

Inductive reason :=
| Missing
| Literal_error
| String_too_short
| String_too_long
| String_pattern_mismatch.

Definition ValidationError := list (string * reason).

Definition literal_field (allowed : list pystr) (v : option pystr)
  : reason + pystr :=
  match v with
  | None => inl Missing
  | Some s => if pystr_in s allowed then inr s else inl Literal_error
  end.

Definition int_field (v : option Z) : reason + Z :=
  match v with
  | None => inl Missing
  | Some n => inr n
  end.

Definition str_field (min_length max_length : nat) (v : option pystr)
  : reason + pystr :=
  match v with
  | None => inl Missing
  | Some s =>
    if (length s <? min_length)%nat then inl String_too_short
    else if (max_length <? length s)%nat then inl String_too_long
    else inr s
  end.

Definition pattern_field (is_digit : char -> bool) (p : list atom)
    (v : option pystr) : reason + pystr :=
  match v with
  | None => inl Missing
  | Some s =>
    if pattern_match is_digit p s then inr s else inl String_pattern_mismatch
  end.

Definition error_at {A} (loc : string) (r : reason + A) : ValidationError :=
  match r with
  | inl e => [(loc, e)]
  | inr _ => []
  end.

(** Validation of a request body against [BirthData]: every field is
    checked, and the errors of all fields are reported together. *)
Definition validate (is_digit : char -> bool) (raw : RawBirthData)
  : ValidationError + BirthData.t :=
  let r1 := literal_field id_types (raw_father_id_type raw) in
  let r2 := int_field (raw_father_id raw) in
  let r3 := literal_field id_types (raw_mother_id_type raw) in
  let r4 := int_field (raw_mother_id raw) in
  let r5 := str_field 2 100 (raw_mother_name raw) in
  let r6 := str_field 2 100 (raw_hospital_name raw) in
  let r7 := pattern_field is_digit birth_date_pattern (raw_birth_date raw) in
  match r1, r2, r3, r4, r5, r6, r7 with
  | inr a1, inr a2, inr a3, inr a4, inr a5, inr a6, inr a7 =>
    inr {| BirthData.father_id_type := a1; BirthData.father_id := a2;
           BirthData.mother_id_type := a3; BirthData.mother_id := a4;
           BirthData.mother_name := a5; BirthData.hospital_name := a6;
           BirthData.birth_date := a7 |}
  | _, _, _, _, _, _, _ =>
    inl (error_at "father_id_type" r1 ++ error_at "father_id" r2
         ++ error_at "mother_id_type" r3 ++ error_at "mother_id" r4
         ++ error_at "mother_name" r5 ++ error_at "hospital_name" r6
         ++ error_at "birth_date" r7)
  end.

(** ** Exceptions and response bodies *)

Inductive exn :=
| HTTPException (status_code : Z) (detail : pystr)
| OverflowError (msg : pystr)
| OperationalError (msg : pystr)
| KeyError (key : string)
| TemplateError (msg : pystr).

(** The status of the response to an exception that leaves the endpoint. *)
Definition status_of (e : exn) : Z :=
  match e with
  | HTTPException c _ => c
  | _ => 500
  end.

(** ** Record store: the table [births] *)

Module Row.
Record t := {
  id : Z;
  father_id : Z;
  mother_id : Z;
  mother_name : pystr;
  hospital_name : pystr;
  birth_date : pystr;
  created_at : pystr
}.
End Row.

(** The rows in rowid order, and the largest rowid ever given out (the entry
    of the table in [sqlite_sequence]; 0 when there is none yet). *)
Record Database := {
  births : list Row.t;
  sqlite_sequence : Z
}.

(** [init_db] on a file that does not exist yet. *)
Definition init_db : Database := {| births := []; sqlite_sequence := 0 |}.

Inductive body :=
| Page
| Message (message : pystr)
| Deleted (message : pystr) (deleted_count : Z)
| Data (data : list Row.t).

(** An [int] bound to a statement must fit SQLite's 64-bit INTEGER. *)
Definition sqlite_int (n : Z) : bool :=
  (- 9223372036854775808 <=? n) && (n <=? 9223372036854775807).

Definition int_too_large : exn :=
  OverflowError (py "Python int too large to convert to SQLite INTEGER").

(** [WHERE father_id = ? AND mother_id = ?] *)
Definition matches (f m : Z) (r : Row.t) : bool :=
  (Row.father_id r =? f) && (Row.mother_id r =? m).

Definition select_births (db : Database) (f m : Z) : exn + list Row.t :=
  if sqlite_int f && sqlite_int m
  then inr (List.filter (matches f m) (births db))
  else inl int_too_large.

(** The rowid AUTOINCREMENT gives the next row: one more than the largest
    rowid the table has ever held. *)
Definition last_rowid (db : Database) : Z :=
  fold_right Z.max (sqlite_sequence db) (map Row.id (births db)).

Definition max_rowid : Z := 9223372036854775807.

Definition insert_birth (db : Database)
    (f m : Z) (name hospital date created : pystr) : exn + Database :=
  let top := last_rowid db in
  if top =? max_rowid
  then inl (OperationalError (py "database or disk is full"))
  else inr {| births := births db ++
                [ {| Row.id := top + 1; Row.father_id := f; Row.mother_id := m;
                     Row.mother_name := name; Row.hospital_name := hospital;
                     Row.birth_date := date; Row.created_at := created |} ];
              sqlite_sequence := top + 1 |}.

(** [DELETE FROM births WHERE created_at < ?]: the rows left, and
    [cursor.rowcount]. *)
Definition older_than (cutoff : pystr) (r : Row.t) : bool :=
  text_ltb (Row.created_at r) cutoff.

Definition delete_births (db : Database) (cutoff : pystr) : Z * Database :=
  (Z.of_nat (length (List.filter (older_than cutoff) (births db))),
   {| births := List.filter (fun r => negb (older_than cutoff r)) (births db);
      sqlite_sequence := sqlite_sequence db |}).

(** ** Rate limiter: the decorator [rate_limit] *)

(** [x >= p] for a [float] [x] and an [int] [p]: the comparison of the two
    numbers as they are, false when [x] is not a number. *)
Definition float_ge_int (x : float) (p : Z) : bool :=
  match Prim2SF x with
  | S754_zero _ => p <=? 0
  | S754_infinity s => negb s
  | S754_nan => false
  | S754_finite s m e =>
    let v := if s then Z.neg m else Z.pos m in
    if 0 <=? e then p <=? v * 2 ^ e else p * 2 ^ (- e) <=? v
  end.

(** [now - t >= period]: the difference of two clock readings is the float
    nearest to it. *)
Definition elapsed (period : Z) (t now : float) : bool :=
  float_ge_int (now - t)%float period.

(** The two dictionaries of one decorated function, keyed by its name. *)
Record limiter := {
  last_reset : gmap string float;
  call_count : gmap string Z
}.

Definition new_limiter : limiter := {| last_reset := ∅; call_count := ∅ |}.

(** [last_reset[name] = t; call_count[name] = 0] *)
Definition open_window (name : string) (t : float) (l : limiter) : limiter :=
  {| last_reset := <[name := t]> (last_reset l);
     call_count := <[name := 0]> (call_count l) |}.

(** [call_count[name] += 1], from the value [c] read. *)
Definition count_call (name : string) (c : Z) (l : limiter) : limiter :=
  {| last_reset := last_reset l;
     call_count := <[name := c + 1]> (call_count l) |}.

Definition too_many_requests : exn :=
  HTTPException 429
    (py "تم تجاوز الحد المسموح به من الطلبات. الرجاء المحاولة لاحقاً.").

(** First use of the name: the window opens at this call. *)
Definition first_use (name : string) (now : float) (l : limiter)
  : limiter :=
  match last_reset l !! name with
  | None => open_window name now l
  | Some _ => l
  end.

(** The window is over: a new one opens at this call. *)
Definition renew (period : Z) (name : string) (now : float) (l : limiter)
  : exn + limiter :=
  match last_reset l !! name with
  | None => inl (KeyError name)
  | Some t =>
    if elapsed period t now
    then inr (open_window name now l)
    else inr l
  end.

(** The window the call is counted in: [first_use], then [renew]. *)
Definition current_window (period : Z) (name : string) (now : float)
    (l : limiter)
  : exn + limiter :=
  renew period name now (first_use name now l).

(** The limit test and the count. *)
Definition count_or_reject (calls : Z) (name : string) (l : limiter)
  : (exn + unit) * limiter :=
  match call_count l !! name with
  | None => (inl (KeyError name), l)
  | Some c =>
    if calls <=? c then (inl too_many_requests, l)
    else (inr tt, count_call name c l)
  end.

(** The body of [wrapper] before the call of the decorated function. *)
Definition check_rate (calls period : Z) (name : string) (now : float)
    (l : limiter) : (exn + unit) * limiter :=
  match current_window period name now l with
  | inl e => (inl e, first_use name now l)
  | inr l' => count_or_reject calls name l'
  end.

(** [rate_limit(calls, period)(func)], for a function [func] named [name]
    that acts on a state [S]. *)
Definition rate_limit {S A : Type} (calls period : Z) (name : string)
    (func : S -> (exn + A) * S) (now : float) (st : limiter * S)
  : (exn + A) * (limiter * S) :=
  match check_rate calls period name now (fst st) with
  | (inl e, l) => (inl e, (l, snd st))
  | (inr _, l) => let (r, s) := func (snd st) in (r, (l, s))
  end.

(** The outcomes of a sequence of calls at the given clock readings. *)
Fixpoint calls_at (calls period : Z) (name : string) (ts : list float)
    (l : limiter) : list (exn + unit) * limiter :=
  match ts with
  | [] => ([], l)
  | t :: ts' =>
    let (r, l1) := check_rate calls period name t l in
    let (rs, l2) := calls_at calls period name ts' l1 in
    (r :: rs, l2)
  end.

(** ** Handlers *)

Section Handlers.

(** [str(e)] of the runtime library. *)
Variable exc_str : exn -> pystr.

(** [except Exception as e: raise HTTPException(status_code=500, ...)] *)
Definition server_error (e : exn) : exn := HTTPException 500 (exc_str e).

Definition already_saved (hospital : pystr) : exn :=
  HTTPException 400 (py "تم إدخال هذه البيانات بالفعل في مستشفى " ++ hospital).

(** [save_data], up to the test of [cursor.fetchone()]: the two tests of the
    id types and the lookup of the pair. [inr tt]: no row has the pair. *)
Definition save_data_check (db : Database) (data : BirthData.t)
  : exn + unit :=
  if negb (pystr_in (BirthData.father_id_type data) id_types)
  then inl (HTTPException 400 (py "نوع رقم الأب غير صحيح."))
  else if negb (pystr_in (BirthData.mother_id_type data) id_types)
  then inl (HTTPException 400 (py "نوع رقم الأم غير صحيح."))
  else
    match select_births db (BirthData.father_id data)
                           (BirthData.mother_id data) with
    | inl e => inl e
    | inr (r :: _) => inl (already_saved (Row.hospital_name r))
    | inr [] => inr tt
    end.

(** [save_data], from [created_at = ...] to the [return]. *)
Definition save_data_insert (db : Database) (now : datetime)
    (data : BirthData.t) : (exn + body) * Database :=
  match insert_birth db (BirthData.father_id data) (BirthData.mother_id data)
          (BirthData.mother_name data) (BirthData.hospital_name data)
          (BirthData.birth_date data) (isoformat now) with
  | inl e => (inl e, db)
  | inr db' => (inr (Message (py "تم حفظ البيانات بنجاح")), db')
  end.

(** The [try] block of [save_data]. *)
Definition save_data_try (now : datetime) (data : BirthData.t)
    (db : Database) : (exn + body) * Database :=
  match save_data_check db data with
  | inl e => (inl e, db)
  | inr _ => save_data_insert db now data
  end.

(** A [try] block under [except Exception]. *)
Definition guarded {S A : Type} (r : (exn + A) * S) : (exn + A) * S :=
  match r with
  | (inl e, s) => (inl (server_error e), s)
  | (inr a, s) => (inr a, s)
  end.

Definition save_data (now : datetime) (data : BirthData.t) (db : Database)
  : (exn + body) * Database :=
  guarded (save_data_try now data db).

(** [{"message": f"تم حذف {n} إدخالات قديمة", "details": {"deleted_count": n}}] *)
Definition deleted_report (n : Z) : body :=
  Deleted (py "تم حذف " ++ str_of_int n ++ py " إدخالات قديمة") n.

Definition delete_old_entries_try (now : datetime) (db : Database)
  : (exn + body) * Database :=
  match minus_days now 30 with
  | None => (inl (OverflowError (py "date value out of range")), db)
  | Some cutoff =>
    let cutoff_time := isoformat cutoff in
    let (deleted_count, db') := delete_births db cutoff_time in
    (inr (deleted_report deleted_count), db')
  end.

Definition delete_old_entries (now : datetime) (db : Database)
  : (exn + body) * Database :=
  guarded (delete_old_entries_try now db).

Definition search_data_try (father_id mother_id : Z) (db : Database)
  : (exn + body) * Database :=
  match select_births db father_id mother_id with
  | inl e => (inl e, db)
  | inr [] =>
    (inl (HTTPException 404 (py "لم يتم العثور على بيانات.")), db)
  | inr result => (inr (Data result), db)
  end.

Definition search_data (father_id mother_id : Z) (db : Database)
  : (exn + body) * Database :=
  guarded (search_data_try father_id mother_id db).

(** [read_root]: the response built from the template, or the exception
    that the template engine raises while building it ([rendering] holds its
    message); the handler has no [try] block, so the exception leaves it as
    it is. *)
Definition read_root (rendering : option pystr) (db : Database)
  : (exn + body) * Database :=
  match rendering with
  | None => (inr Page, db)
  | Some msg => (inl (TemplateError msg), db)
  end.

(** ** The application: the four decorated endpoints over one database

    Each decorated function has dictionaries of its own. The body of a
    submission reaches its endpoint as a [BirthData]. *)

Record App := {
  root_limiter : limiter;
  save_limiter : limiter;
  delete_limiter : limiter;
  search_limiter : limiter;
  db : Database
}.

Definition new_app : App :=
  {| root_limiter := new_limiter; save_limiter := new_limiter;
     delete_limiter := new_limiter; search_limiter := new_limiter;
     db := init_db |}.

Inductive request :=
| ReadRoot
| SaveData (data : BirthData.t)
| DeleteOldEntries
| SearchData (father_id mother_id : Z).

(** What a request reads from outside the program: the two clocks and, for
    the landing page, the outcome of the rendering of the template ([None]:
    the page; [Some msg]: an exception of the template engine). *)
Record clock := {
  time_time : float;
  datetime_now : datetime;
  rendering : option pystr
}.

Definition serve (c : clock) (req : request) (a : App)
  : (exn + body) * App :=
  match req with
  | ReadRoot =>
    let '(r, (l, d)) :=
      rate_limit 100 60 "read_root" (read_root (rendering c))
                 (time_time c) (root_limiter a, db a) in
    (r, {| root_limiter := l; save_limiter := save_limiter a;
           delete_limiter := delete_limiter a;
           search_limiter := search_limiter a; db := d |})
  | SaveData data =>
    let '(r, (l, d)) :=
      rate_limit 10 60 "save_data" (save_data (datetime_now c) data)
                 (time_time c) (save_limiter a, db a) in
    (r, {| root_limiter := root_limiter a; save_limiter := l;
           delete_limiter := delete_limiter a;
           search_limiter := search_limiter a; db := d |})
  | DeleteOldEntries =>
    let '(r, (l, d)) :=
      rate_limit 5 3600 "delete_old_entries"
                 (delete_old_entries (datetime_now c))
                 (time_time c) (delete_limiter a, db a) in
    (r, {| root_limiter := root_limiter a; save_limiter := save_limiter a;
           delete_limiter := l;
           search_limiter := search_limiter a; db := d |})
  | SearchData f m =>
    let '(r, (l, d)) :=
      rate_limit 20 60 "search_data" (search_data f m)
                 (time_time c) (search_limiter a, db a) in
    (r, {| root_limiter := root_limiter a; save_limiter := save_limiter a;
           delete_limiter := delete_limiter a;
           search_limiter := l; db := d |})
  end.

(** The application after a sequence of requests. *)
Fixpoint serve_all (reqs : list (clock * request)) (a : App) : App :=
  match reqs with
  | [] => a
  | (c, req) :: reqs' => serve_all reqs' (snd (serve c req a))
  end.

(** ** Two submissions whose statements interleave

    Every request opens a connection of its own to the database file, and
    [save_data] runs its SELECT and its INSERT as two statements, outside any
    transaction that would span both. Between the two, a submission served
    by another worker on the same file can run a statement of its own.

    A submission in progress: before its SELECT, between its SELECT (which
    found no row) and its INSERT, or answered. *)
Inductive task :=
| Start (data : BirthData.t)
| Checked (data : BirthData.t)
| Finished (r : exn + body).

Definition task_step (now : datetime) (t : task) (d : Database)
  : task * Database :=
  match t with
  | Start data =>
    match save_data_check d data with
    | inl e => (Finished (inl (server_error e)), d)
    | inr _ => (Checked data, d)
    end
  | Checked data =>
    let (r, d') := guarded (save_data_insert d now data) in
    (Finished r, d')
  | Finished r => (t, d)
  end.

(** A schedule names, step by step, which of the two submissions moves
    ([true]: the first) and the [datetime.now()] it would read. *)
Fixpoint interleave (sched : list (bool * datetime)) (t1 t2 : task)
    (d : Database) : task * task * Database :=
  match sched with
  | [] => (t1, t2, d)
  | (true, now) :: sched' =>
    let (t1', d') := task_step now t1 d in interleave sched' t1' t2 d'
  | (false, now) :: sched' =>
    let (t2', d') := task_step now t2 d in interleave sched' t1 t2' d'
  end.

Definition succeeded (t : task) : bool :=
  match t with
  | Finished (inr _) => true
  | _ => false
  end.

End Handlers.

(** ** Sample values *)

(** [str(e)] as the runtime library gives it: an [HTTPException] prints its
    status code and its detail, a built-in exception its message, a
    [KeyError] its key between quotes. *)
Definition library_str (e : exn) : pystr :=
  match e with
  | HTTPException c d => str_of_int c ++ py ": " ++ d
  | OverflowError m => m
  | OperationalError m => m
  | KeyError k => py "'" ++ py k ++ py "'"
  | TemplateError m => m
  end.

Definition sample_data : BirthData.t :=
  {| BirthData.father_id_type := py "رقم الموحدة";
     BirthData.father_id := 1001;
     BirthData.mother_id_type := py "رقم الموحدة";
     BirthData.mother_id := 2002;
     BirthData.mother_name := py "فاطمة";
     BirthData.hospital_name := py "مستشفى بغداد";
     BirthData.birth_date := py "2024-02-29" |}.

(** The same parents under the other id type, at another hospital. *)
Definition sample_data' : BirthData.t :=
  {| BirthData.father_id_type := py "رقم هوية الأحوال";
     BirthData.father_id := 1001;
     BirthData.mother_id_type := py "رقم هوية الأحوال";
     BirthData.mother_id := 2002;
     BirthData.mother_name := py "فاطمة";
     BirthData.hospital_name := py "مستشفى البصرة";
     BirthData.birth_date := py "2024-02-29" |}.

Definition at_time (y mo d h mi s us : Z) : datetime :=
  {| year := y; month := mo; day := d; hour := h; minute := mi;
     second := s; microsecond := us |}.

Definition noon_1_march : datetime := at_time 2024 3 1 12 0 0 0.

(** The store after [sample_data] was saved on 15 January 2024. *)
Definition sample_db : Database :=
  snd (save_data library_str (at_time 2024 1 15 8 30 0 250000) sample_data
                 init_db).

Definition raw_sample : RawBirthData :=
  {| raw_father_id_type := Some (py "رقم الموحدة");
     raw_father_id := Some 1001;
     raw_mother_id_type := Some (py "رقم الموحدة");
     raw_mother_id := Some 2002;
     raw_mother_name := Some (py "فاطمة");
     raw_hospital_name := Some (py "مستشفى بغداد");
     raw_birth_date := Some (py "2024-02-29") |}.

(** The row of [sample_data] in [sample_db]. *)
Definition sample_row : Row.t :=
  {| Row.id := 1; Row.father_id := 1001; Row.mother_id := 2002;
     Row.mother_name := py "فاطمة";
     Row.hospital_name := py "مستشفى بغداد";
     Row.birth_date := py "2024-02-29";
     Row.created_at := py "2024-01-15T08:30:00.250000" |}.

(** A limiter of one call per minute, after a call at second 0. *)
Definition one_call : limiter :=
  snd (check_rate 1 60 "save_data" 0 new_limiter).

(** ** Predicates of the properties *)

(** The row was created at a moment before [cutoff]. *)
Definition created_before (cutoff : datetime) (r : Row.t) : Prop :=
  exists t, valid_datetime t = true /\ Row.created_at r = isoformat t /\
            precedes t cutoff.

(** The row carries the timestamp of some moment, as every row written by
    [save_data] does. *)
Definition stamped (r : Row.t) : Prop :=
  exists t, valid_datetime t = true /\ Row.created_at r = isoformat t.

(** The window of [name]: its start and its counter. *)
Definition window (l : limiter) (name : string) (t : float) (c : Z)
  : Prop :=
  last_reset l !! name = Some t /\ call_count l !! name = Some c.

(** The clock reading [now] lies in the window opened at [t]. *)
Definition within (period : Z) (t now : float) : Prop :=
  elapsed period t now = false.

(** The call at [now] starts a window: the name was never used, or the
    period has elapsed since the start of its window. *)
Definition opens_window (period : Z) (name : string) (now : float)
    (l : limiter)
  : Prop :=
  last_reset l !! name = None \/
  exists t, last_reset l !! name = Some t /\ elapsed period t now = true.

(** One statement that writes, or none. *)
Inductive store_step (d : Database) : Database -> Prop :=
| step_none : store_step d d
| step_insert f m name hospital date created d' :
    insert_birth d f m name hospital date created = inr d' ->
    store_step d d'
| step_delete cutoff : store_step d (snd (delete_births d cutoff)).

(** No row has an id above the high-water mark, and no two rows share one. *)
Definition store_ok (d : Database) : Prop :=
  (forall r, In r (births d) -> Row.id r <= sqlite_sequence d) /\
  List.NoDup (map Row.id (births d)).

(** The text has the shape [YYYY-MM-DD]: four digits, a hyphen, two digits,
    a hyphen, two digits, and nothing else. *)
Definition lexical_date (is_digit : char -> bool) (s : pystr) : Prop :=
  exists y1 y2 y3 y4 m1 m2 d1 d2,
    s = [y1; y2; y3; y4; hyphen; m1; m2; hyphen; d1; d2] /\
    List.Forall (fun c => is_digit c = true) [y1; y2; y3; y4; m1; m2; d1; d2].

Definition in_enumeration (v : option pystr) : Prop :=
  exists s, v = Some s /\ In s id_types.

Definition length_in_range (v : option pystr) : Prop :=
  exists s, v = Some s /\ (2 <= length s <= 100)%nat.

Definition has_date_shape (is_digit : char -> bool) (v : option pystr)
  : Prop :=
  exists s, v = Some s /\ lexical_date is_digit s.

Definition is_integer (v : option Z) : Prop := exists n, v = Some n.

(** One of the conditions under which the validator is to fail holds. *)
Definition invalid (is_digit : char -> bool) (raw : RawBirthData) : Prop :=
  ~ in_enumeration (raw_father_id_type raw) \/
  ~ in_enumeration (raw_mother_id_type raw) \/
  ~ length_in_range (raw_mother_name raw) \/
  ~ length_in_range (raw_hospital_name raw) \/
  ~ has_date_shape is_digit (raw_birth_date raw) \/
  ~ is_integer (raw_father_id raw) \/
  ~ is_integer (raw_mother_id raw).

(** The body as it was sent, field by field. *)
Definition as_sent (raw : RawBirthData) (data : BirthData.t) : Prop :=
  raw_father_id_type raw = Some (BirthData.father_id_type data) /\
  raw_father_id raw = Some (BirthData.father_id data) /\
  raw_mother_id_type raw = Some (BirthData.mother_id_type data) /\
  raw_mother_id raw = Some (BirthData.mother_id data) /\
  raw_mother_name raw = Some (BirthData.mother_name data) /\
  raw_hospital_name raw = Some (BirthData.hospital_name data) /\
  raw_birth_date raw = Some (BirthData.birth_date data).

Definition with_birth_date (raw : RawBirthData) (s : pystr) : RawBirthData :=
  {| raw_father_id_type := raw_father_id_type raw;
     raw_father_id := raw_father_id raw;
     raw_mother_id_type := raw_mother_id_type raw;
     raw_mother_id := raw_mother_id raw;
     raw_mother_name := raw_mother_name raw;
     raw_hospital_name := raw_hospital_name raw;
     raw_birth_date := Some s |}.

Definition set_birth_date (data : BirthData.t) (s : pystr) : BirthData.t :=
  {| BirthData.father_id_type := BirthData.father_id_type data;
     BirthData.father_id := BirthData.father_id data;
     BirthData.mother_id_type := BirthData.mother_id_type data;
     BirthData.mother_id := BirthData.mother_id data;
     BirthData.mother_name := BirthData.mother_name data;
     BirthData.hospital_name := BirthData.hospital_name data;
     BirthData.birth_date := s |}.

(** The number written by ASCII digits. *)
Definition number (cs : list char) : Z :=
  fold_left (fun acc c => acc * 10 + (c - 48)) cs 0.

(** The text is the date of a day of the calendar. *)
Definition calendar_valid (s : pystr) : Prop :=
  exists y1 y2 y3 y4 m1 m2 d1 d2,
    s = [y1; y2; y3; y4; hyphen; m1; m2; hyphen; d1; d2] /\
    List.Forall (fun c => ascii_digit c = true)
                [y1; y2; y3; y4; m1; m2; d1; d2] /\
    1 <= number [y1; y2; y3; y4] /\
    1 <= number [m1; m2] <= 12 /\
    1 <= number [d1; d2]
      <= days_in_month (number [y1; y2; y3; y4]) (number [m1; m2]).

(** The check of a field failed. *)
Definition failed {A : Type} (r : reason + A) : Prop := exists e, r = inl e.

(** Each submission runs to its end before the other starts. *)
Definition in_turn (now1 now2 : datetime) : list (bool * datetime) :=
  [(true, now1); (true, now1); (false, now2); (false, now2)].

(** The first submission runs its SELECT, then the second runs its SELECT,
    then each runs its INSERT. *)
Definition racing_schedule : list (bool * datetime) :=
  [(true, noon_1_march); (false, noon_1_march);
   (true, noon_1_march); (false, noon_1_march)].

(** No two rows have the same pair of ids. *)
Definition pairs_unique (d : Database) : Prop :=
  List.NoDup (map (fun r => (Row.father_id r, Row.mother_id r)) (births d)).

(** The application over [sample_db], no call counted yet. *)
Definition sample_app : App :=
  {| root_limiter := new_limiter; save_limiter := new_limiter;
     delete_limiter := new_limiter; search_limiter := new_limiter;
     db := sample_db |}.

Definition sample_clock : clock :=
  {| time_time := 0; datetime_now := noon_1_march; rendering := None |}.

(** The application after five purges at second 0. *)
Definition five_purges : App :=
  serve_all library_str
    (repeat (sample_clock, DeleteOldEntries) 5) new_app.

Definition ten_seconds_later : clock :=
  {| time_time := 10; datetime_now := noon_1_march; rendering := None |}.

(** ** Predicates of the further properties *)


(** The two dictionaries agree on [name]: it is in neither, or in both with
    a counter from 0 to the limit. *)
Definition limiter_ok (calls : Z) (name : string) (l : limiter) : Prop :=
  (last_reset l !! name = None /\ call_count l !! name = None) \/
  exists t c, window l name t c /\ 0 <= c <= Z.max 0 calls.

(** The reading [x] is not before the reading [t]: the difference that the
    wrapper computes, [x - t], is not negative. *)
Definition not_before (t x : float) : bool := float_ge_int (x - t)%float 0.

(** The clock never steps back along the readings. *)
Fixpoint non_decreasing (t : float) (ts : list float) : Prop :=
  match ts with
  | [] => True
  | x :: r => not_before t x = true /\ non_decreasing x r
  end.


(** The row a submission writes under the rowid [i]. *)
Definition row_of (i : Z) (now : datetime) (data : BirthData.t) : Row.t :=
  {| Row.id := i;
     Row.father_id := BirthData.father_id data;
     Row.mother_id := BirthData.mother_id data;
     Row.mother_name := BirthData.mother_name data;
     Row.hospital_name := BirthData.hospital_name data;
     Row.birth_date := BirthData.birth_date data;
     Row.created_at := isoformat now |}.

(** The row was written by a submission of the history [reqs]: the request
    [(c, SaveData data)], served after the requests before it, added the row
    to the table, with the fields of [data] and the text of the
    [datetime.now()] that it read. *)
Definition written_by (exc_str : exn -> pystr)
    (reqs : list (clock * request)) (r : Row.t) : Prop :=
  exists pre c data post,
    reqs = pre ++ (c, SaveData data) :: post /\
    let a := serve_all exc_str pre new_app in
    births (db (snd (serve exc_str c (SaveData data) a)))
    = births (db a) ++ [r] /\
    r = row_of (Row.id r) (datetime_now c) data.

(** The model came out of the validation of some body. *)
Definition accepted (is_digit : char -> bool) (data : BirthData.t) : Prop :=
  exists raw, validate is_digit raw = inr data.

(** The row satisfies the constraints that [BirthData] puts on its columns. *)
Definition meets_constraints (is_digit : char -> bool) (r : Row.t) : Prop :=
  (2 <= length (Row.mother_name r) <= 100)%nat /\
  (2 <= length (Row.hospital_name r) <= 100)%nat /\
  lexical_date is_digit (Row.birth_date r).

(** The bodies of the submissions among the requests were all validated. *)
Definition validated (is_digit : char -> bool) (req : request) : Prop :=
  match req with
  | SaveData data => accepted is_digit data
  | _ => True
  end.

(** The limit, the period and the name under which an endpoint is
    decorated, and the limiter it counts in. *)
Definition limit_of (req : request) : Z :=
  match req with
  | ReadRoot => 100
  | SaveData _ => 10
  | DeleteOldEntries => 5
  | SearchData _ _ => 20
  end.

Definition period_of (req : request) : Z :=
  match req with
  | DeleteOldEntries => 3600
  | _ => 60
  end.

Definition name_of (req : request) : string :=
  match req with
  | ReadRoot => "read_root"
  | SaveData _ => "save_data"
  | DeleteOldEntries => "delete_old_entries"
  | SearchData _ _ => "search_data"
  end.

Definition limiter_of (req : request) (a : App) : limiter :=
  match req with
  | ReadRoot => root_limiter a
  | SaveData _ => save_limiter a
  | DeleteOldEntries => delete_limiter a
  | SearchData _ _ => search_limiter a
  end.

(** The dictionaries of the four limiters agree, each on its name. *)
Definition app_ok (a : App) : Prop :=
  limiter_ok 100 "read_root" (root_limiter a) /\
  limiter_ok 10 "save_data" (save_limiter a) /\
  limiter_ok 5 "delete_old_entries" (delete_limiter a) /\
  limiter_ok 20 "search_data" (search_limiter a).

(** * Properties *)

(** ** Texts and timestamps *)

Lemma text_compare_refl (s : pystr) : text_compare s s = Eq.
Proof.
  induction s as [|a s IH]; simpl; [reflexivity|].
  now rewrite Z.compare_refl.
Qed.

Lemma text_compare_app (p1 p2 s1 s2 : pystr) :
  length p1 = length p2 ->
  text_compare (p1 ++ s1) (p2 ++ s2) =
  match text_compare p1 p2 with
  | Eq => text_compare s1 s2
  | c => c
  end.
Proof.
  revert p2. induction p1 as [|a p1 IH]; intros [|b p2] Hlen;
    simpl in *; try discriminate; [reflexivity|].
  destruct (a ?= b); auto.
Qed.

(** Under a common prefix the comparison is that of the rests. *)
Lemma text_compare_prefix (p s1 s2 : pystr) :
  text_compare (p ++ s1) (p ++ s2) = text_compare s1 s2.
Proof.
  rewrite text_compare_app by reflexivity. now rewrite text_compare_refl.
Qed.

Lemma dec_length (w : nat) (n : Z) : length (dec w n) = w.
Proof.
  revert n. induction w as [|w IH]; intros n; simpl; [reflexivity|].
  rewrite length_app, IH. simpl. lia.
Qed.

(** Zero-padded decimals of one width compare as the numbers do. *)
Lemma dec_compare (w : nat) (a b : Z) :
  0 <= a < 10 ^ Z.of_nat w -> 0 <= b < 10 ^ Z.of_nat w ->
  text_compare (dec w a) (dec w b) = (a ?= b).
Proof.
  revert a b. induction w as [|w IH]; intros a b Ha Hb.
  - simpl in *. assert (a = 0) by lia. assert (b = 0) by lia. subst.
    reflexivity.
  - rewrite Nat2Z.inj_succ, Z.pow_succ_r in Ha, Hb by lia.
    cbn [dec]. rewrite text_compare_app by now rewrite !dec_length.
    rewrite IH by (split; [apply Z.div_pos; lia
                          | apply Z.div_lt_upper_bound; lia]).
    pose proof (Z.div_mod a 10 ltac:(lia)) as Da.
    pose proof (Z.div_mod b 10 ltac:(lia)) as Db.
    pose proof (Z.mod_pos_bound a 10 ltac:(lia)) as Ma.
    pose proof (Z.mod_pos_bound b 10 ltac:(lia)) as Mb.
    destruct (Z.compare_spec (a / 10) (b / 10)) as [E|L|G].
    + simpl.
      destruct (Z.compare_spec (48 + a mod 10) (48 + b mod 10));
        symmetry; [apply Z.compare_eq_iff | apply Z.compare_lt_iff
                  | apply Z.compare_gt_iff]; lia.
    + symmetry; apply Z.compare_lt_iff; lia.
    + symmetry; apply Z.compare_gt_iff; lia.
Qed.

Lemma fraction_compare (a b : Z) :
  0 <= a <= 999999 -> 0 <= b <= 999999 ->
  text_compare (fraction a) (fraction b) = (a ?= b).
Proof.
  intros Ha Hb. unfold fraction.
  destruct (Z.eqb_spec a 0) as [->|Na], (Z.eqb_spec b 0) as [->|Nb].
  - reflexivity.
  - simpl. destruct b; [lia | reflexivity | lia].
  - simpl. destruct a; [lia | reflexivity | lia].
  - rewrite text_compare_prefix. apply dec_compare; simpl; lia.
Qed.

Lemma valid_datetime_bounds (d : datetime) :
  valid_datetime d = true ->
  1 <= year d <= 9999 /\ 1 <= month d <= 12 /\
  1 <= day d <= days_in_month (year d) (month d) /\
  0 <= hour d <= 23 /\ 0 <= minute d <= 59 /\ 0 <= second d <= 59 /\
  0 <= microsecond d <= 999999.
Proof.
  unfold valid_datetime, between. rewrite !andb_true_iff, !Z.leb_le. tauto.
Qed.

Lemma days_in_month_bounds (y m : Z) : 28 <= days_in_month y m <= 31.
Proof.
  unfold days_in_month.
  destruct (m =? 2); [destruct (is_leap y); lia|].
  destruct ((m =? 4) || (m =? 6) || (m =? 9) || (m =? 11)); lia.
Qed.

(** The text order of ISO timestamps is the chronological order. *)
Lemma isoformat_compare (a b : datetime) :
  valid_datetime a = true -> valid_datetime b = true ->
  text_compare (isoformat a) (isoformat b) = datetime_compare a b.
Proof.
  intros Va Vb.
  apply valid_datetime_bounds in Va, Vb.
  pose proof (days_in_month_bounds (year a) (month a)).
  pose proof (days_in_month_bounds (year b) (month b)).
  unfold isoformat, datetime_compare, fields.
  repeat (rewrite text_compare_app by now rewrite !dec_length);
  repeat (rewrite text_compare_prefix).
  repeat first
    [ rewrite (dec_compare 4) by (simpl; lia)
    | rewrite (dec_compare 2) by (simpl; lia)
    | rewrite text_compare_app by now rewrite !dec_length
    | rewrite text_compare_prefix ].
  rewrite fraction_compare by lia.
  cbn [fields_compare].
  repeat match goal with
  | |- context [ ?x ?= ?y ] => destruct (x ?= y); try reflexivity
  end.
Qed.

Lemma borrow_done (fuel : nat) (y m d : Z) :
  1 <= d -> borrow fuel y m d = Some (y, m, d).
Proof.
  intros Hd. destruct fuel; simpl;
    destruct (Z.leb_spec 1 d); (reflexivity || lia).
Qed.

(** Borrowing at most 30 days ends on a date of the calendar, in the same
    year or the year before. *)
Lemma borrow_spec (fuel : nat) (y m d : Z) :
  1 <= m <= 12 -> - 30 <= d <= days_in_month y m ->
  1 <= d + 28 * Z.of_nat fuel ->
  exists y' m' d',
    borrow fuel y m d = Some (y', m', d') /\
    y - 1 <= y' <= y /\ 1 <= m' <= 12 /\ 1 <= d' <= days_in_month y' m'.
Proof.
  revert y m d. induction fuel as [|fuel IH]; intros y m d Hm Hd Hfuel.
  - exists y, m, d. rewrite borrow_done by lia. repeat split; lia.
  - destruct (Z.le_gt_cases 1 d) as [Hpos|Hneg].
    + exists y, m, d. rewrite borrow_done by lia. repeat split; lia.
    + cbn [borrow]. destruct (Z.leb_spec 1 d); [lia|].
      destruct (Z.eqb_spec m 1) as [->|Hm1].
      * exists (y - 1), 12, (d + days_in_month (y - 1) 12).
        change (days_in_month (y - 1) 12) with 31.
        rewrite borrow_done by lia. repeat split; lia.
      * pose proof (days_in_month_bounds y (m - 1)).
        destruct (IH y (m - 1) (d + days_in_month y (m - 1)))
          as (y' & m' & d' & E & Hy & Hm' & Hd'); [lia | lia | lia |].
        exists y', m', d'. repeat split; (assumption || lia).
Qed.

(** Thirty days before a date of year 2 or later is a date of the calendar. *)
Lemma minus_30_days (now : datetime) :
  valid_datetime now = true -> 2 <= year now ->
  exists cutoff, minus_days now 30 = Some cutoff /\
                 valid_datetime cutoff = true.
Proof.
  intros V Hy. apply valid_datetime_bounds in V.
  pose proof (days_in_month_bounds (year now) (month now)).
  destruct (borrow_spec (Z.to_nat 30) (year now) (month now) (day now - 30))
    as (y & m & d & E & Hy' & Hm & Hd); [lia | lia | lia |].
  unfold minus_days. rewrite E.
  destruct (Z.leb_spec 1 y); [|lia].
  eexists; split; [reflexivity|].
  unfold valid_datetime, between; cbn [year month day hour minute second
                                       microsecond].
  rewrite !andb_true_iff, !Z.leb_le. lia.
Qed.

(** *** Day numbers

    The date arithmetic of [minus_days] against the day numbers of the
    calendar: borrowing keeps the day number, and a date of the calendar is
    determined by its day number. *)

Section Ordinal.

Lemma year_length (y : Z) :
  days_before_year (y + 1) =
  days_before_year y + (if is_leap y then 366 else 365).
Proof.
  unfold days_before_year, is_leap. cbv zeta.
  replace (y + 1 - 1) with y by lia.
  destruct (Z.eqb_spec (y mod 4) 0), (Z.eqb_spec (y mod 100) 0),
    (Z.eqb_spec (y mod 400) 0); cbn [andb orb negb];
    Z.to_euclidean_division_equations; lia.
Qed.

#[local] Arguments is_leap : simpl never.
#[local] Arguments days_before_year : simpl never.

Ltac month_arith :=
  repeat match goal with
  | |- context [Z.pos ?p - 1] =>
    let v := eval vm_compute in (Z.pos p - 1) in
    change (Z.pos p - 1) with v
  | |- context [Z.pos ?p + 1] =>
    let v := eval vm_compute in (Z.pos p + 1) in
    change (Z.pos p + 1) with v
  end.

Lemma month_cases (m : Z) : 1 <= m <= 12 ->
  m = 1 \/ m = 2 \/ m = 3 \/ m = 4 \/ m = 5 \/ m = 6 \/ m = 7 \/ m = 8 \/
  m = 9 \/ m = 10 \/ m = 11 \/ m = 12.
Proof. lia. Qed.

Lemma previous_month (y m : Z) :
  1 <= m <= 12 ->
  let y' := if m =? 1 then y - 1 else y in
  let m' := if m =? 1 then 12 else m - 1 in
  ymd2ord y' m' (days_in_month y' m') = ymd2ord y m 0.
Proof.
  intros Hm. unfold ymd2ord.
  destruct (month_cases m Hm) as [->|H].
  - cbn [Z.eqb Pos.eqb]. cbv zeta.
    pose proof (year_length (y - 1)) as Hy.
    replace (y - 1 + 1) with y in Hy by lia. rewrite Hy.
    clear Hy. generalize (y - 1). intros z.
    unfold days_before_month, days_in_month.
    cbn.
    destruct (is_leap z); lia.
  - repeat (destruct H as [->|H]); try subst m; cbv zeta;
      unfold days_before_month, days_in_month;
      month_arith; cbn;
      destruct (is_leap y); lia.
Qed.

Lemma borrow_ordinal (fuel : nat) :
  forall y m d y' m' d',
  1 <= m <= 12 -> borrow fuel y m d = Some (y', m', d') ->
  ymd2ord y' m' d' = ymd2ord y m d /\ 1 <= m' <= 12.
Proof.
  induction fuel as [|fuel IH]; intros y m d y' m' d' Hm;
    cbn [borrow]; destruct (Z.leb_spec 1 d) as [Hge|Hlt];
    try (intros [= <- <- <-]; split; [reflexivity | exact Hm]);
    [discriminate|].
  intros E. apply IH in E.
  - destruct E as [E Hm']. split; [|exact Hm'].
    rewrite E. pose proof (previous_month y m Hm) as P. cbv zeta in P.
    unfold ymd2ord in *. lia.
  - destruct (Z.eqb_spec m 1); lia.
Qed.

Lemma days_before_year_mono (y y' : Z) :
  y <= y' -> days_before_year y + 365 * (y' - y) <= days_before_year y'.
Proof.
  intros H.
  assert (G : forall n : nat,
            days_before_year y + 365 * Z.of_nat n
            <= days_before_year (y + Z.of_nat n)).
  { induction n as [|n IH]; [cbn [Z.of_nat]; rewrite !Z.add_0_r; lia|].
    replace (y + Z.of_nat (S n)) with (y + Z.of_nat n + 1) by lia.
    rewrite year_length. destruct (is_leap (y + Z.of_nat n)); lia. }
  specialize (G (Z.to_nat (y' - y))).
  replace (y + Z.of_nat (Z.to_nat (y' - y))) with y' in G by lia. lia.
Qed.

Lemma days_before_month_next (y m : Z) :
  1 <= m <= 12 ->
  days_before_month y m + days_in_month y m =
  if m =? 12 then (if is_leap y then 366 else 365)
  else days_before_month y (m + 1).
Proof.
  intros Hm. destruct (month_cases m Hm) as [->|H];
    repeat (destruct H as [->|H]); try subst m;
    unfold days_before_month, days_in_month; month_arith; cbn;
    destruct (is_leap y); lia.
Qed.

Lemma days_before_month_mono (y m m' : Z) :
  1 <= m -> m < m' <= 12 ->
  days_before_month y m + days_in_month y m <= days_before_month y m'.
Proof.
  intros H1 H.
  assert (G : forall n : nat, m + 1 + Z.of_nat n <= 12 ->
            days_before_month y m + days_in_month y m
            <= days_before_month y (m + 1 + Z.of_nat n)).
  2:{ specialize (G (Z.to_nat (m' - m - 1)) ltac:(lia)).
      replace (m + 1 + Z.of_nat (Z.to_nat (m' - m - 1))) with m' in G by lia.
      exact G. }
  induction n as [|n IH]; intros Hle.
  - rewrite days_before_month_next by lia.
    destruct (Z.eqb_spec m 12); [lia|]. cbn [Z.of_nat]. rewrite !Z.add_0_r. lia.
  - assert (IH' := IH ltac:(lia)).
    pose proof (days_before_month_next y (m + 1 + Z.of_nat n) ltac:(lia)) as N.
    destruct (Z.eqb_spec (m + 1 + Z.of_nat n) 12); [lia|].
    replace (m + 1 + Z.of_nat (S n)) with (m + 1 + Z.of_nat n + 1) by lia.
    assert (28 <= days_in_month y (m + 1 + Z.of_nat n)).
    { unfold days_in_month.
      destruct (_ =? 2); [destruct (is_leap y); lia|].
      destruct (_ || _); lia. }
    lia.
Qed.

Lemma ymd2ord_lt (y m d y' m' d' : Z) :
  1 <= m <= 12 -> 1 <= d <= days_in_month y m ->
  1 <= m' <= 12 -> 1 <= d' <= days_in_month y' m' ->
  y < y' \/ (y = y' /\ (m < m' \/ (m = m' /\ d < d'))) ->
  ymd2ord y m d < ymd2ord y' m' d'.
Proof.
  intros Hm Hd Hm' Hd' [Hy|[<- [Hlt|[<- Hlt]]]]; unfold ymd2ord.
  - pose proof (days_before_year_mono (y + 1) y' ltac:(lia)).
    rewrite year_length in H.
    pose proof (days_before_month_next y m Hm) as N.
    assert (days_before_month y m + days_in_month y m
            <= if is_leap y then 366 else 365).
    { destruct (Z.eqb_spec m 12); [lia|].
      pose proof (days_before_month_next y 12 ltac:(lia)) as N'.
      cbn [Z.eqb Pos.eqb] in N'.
      pose proof (days_before_month_mono y m 12 ltac:(lia) ltac:(lia)).
      assert (28 <= days_in_month y 12) by (cbn; lia).
      lia. }
    assert (0 <= days_before_month y' m').
    { unfold days_before_month.
      destruct (month_cases m' Hm') as [->|H'];
        repeat (destruct H' as [->|H']); try subst m'; cbn;
        destruct (is_leap y'); lia. }
    destruct (is_leap y); lia.
  - pose proof (days_before_month_mono y m m' ltac:(lia) ltac:(lia)). lia.
  - lia.
Qed.

Lemma ymd2ord_inj (y m d y' m' d' : Z) :
  1 <= m <= 12 -> 1 <= d <= days_in_month y m ->
  1 <= m' <= 12 -> 1 <= d' <= days_in_month y' m' ->
  ymd2ord y m d = ymd2ord y' m' d' -> y = y' /\ m = m' /\ d = d'.
Proof.
  intros Hm Hd Hm' Hd' E.
  destruct (Z.lt_trichotomy y y') as [H|[H|H]].
  - pose proof (ymd2ord_lt y m d y' m' d' Hm Hd Hm' Hd' ltac:(lia)). lia.
  - destruct (Z.lt_trichotomy m m') as [H1|[H1|H1]].
    + pose proof (ymd2ord_lt y m d y' m' d' Hm Hd Hm' Hd' ltac:(lia)). lia.
    + destruct (Z.lt_trichotomy d d') as [H2|[H2|H2]].
      * pose proof (ymd2ord_lt y m d y' m' d' Hm Hd Hm' Hd' ltac:(lia)). lia.
      * auto.
      * pose proof (ymd2ord_lt y' m' d' y m d Hm' Hd' Hm Hd ltac:(lia)). lia.
    + pose proof (ymd2ord_lt y' m' d' y m d Hm' Hd' Hm Hd ltac:(lia)). lia.
  - pose proof (ymd2ord_lt y' m' d' y m d Hm' Hd' Hm Hd ltac:(lia)). lia.
Qed.

Lemma minus_days_ordinal (dt cutoff : datetime) (n : Z) :
  1 <= month dt <= 12 -> minus_days dt n = Some cutoff ->
  toordinal cutoff = toordinal dt - n /\ time_of_day cutoff = time_of_day dt.
Proof.
  intros Hm. unfold minus_days.
  destruct (borrow (Z.to_nat n) (year dt) (month dt) (day dt - n))
    as [[[y m] d]|] eqn:E; [|discriminate].
  destruct (1 <=? y); [|discriminate]. intros [= <-].
  apply borrow_ordinal in E; [|exact Hm]. destruct E as [E _].
  unfold toordinal, time_of_day.
  cbn [year month day hour minute second microsecond].
  split; [|reflexivity]. rewrite E. unfold ymd2ord. lia.
Qed.

Lemma minus_days_valid (now cutoff : datetime) :
  valid_datetime now = true -> minus_days now 30 = Some cutoff ->
  valid_datetime cutoff = true.
Proof.
  intros V. pose proof (valid_datetime_bounds now V) as B.
  pose proof (days_in_month_bounds (year now) (month now)).
  destruct (borrow_spec (Z.to_nat 30) (year now) (month now) (day now - 30))
    as (y & m & d & E & Hy' & Hm & Hd); [lia | lia | lia |].
  unfold minus_days. rewrite E.
  destruct (Z.leb_spec 1 y); [|discriminate]. intros [= <-].
  unfold valid_datetime, between; cbn [year month day hour minute second
                                       microsecond].
  rewrite !andb_true_iff, !Z.leb_le. lia.
Qed.

Lemma toordinal_inj (a b : datetime) :
  valid_datetime a = true -> valid_datetime b = true ->
  toordinal a = toordinal b -> time_of_day a = time_of_day b -> a = b.
Proof.
  intros Va Vb Ho Ht.
  apply valid_datetime_bounds in Va, Vb.
  apply ymd2ord_inj in Ho; [|lia..].
  destruct a, b. unfold time_of_day in Ht.
  cbn [year month day hour minute second microsecond] in *.
  injection Ht as -> -> -> ->. destruct Ho as (-> & -> & ->). reflexivity.
Qed.

End Ordinal.

Lemma text_ltb_isoformat (a b : datetime) :
  valid_datetime a = true -> valid_datetime b = true ->
  text_ltb (isoformat a) (isoformat b) = true <-> precedes a b.
Proof.
  intros Va Vb. unfold text_ltb, precedes.
  rewrite isoformat_compare by assumption.
  destruct (datetime_compare a b); split; congruence.
Qed.

(** The texts of the source stay folded in the proofs about the handlers. *)
Arguments py : simpl never.
Arguments isoformat : simpl never.
Arguments str_of_int : simpl never.

(** ** Purge *)

Lemma isoformat_inj (a b : datetime) :
  valid_datetime a = true -> valid_datetime b = true ->
  isoformat a = isoformat b -> datetime_compare a b = Eq.
Proof.
  intros Va Vb E. rewrite <- isoformat_compare by assumption.
  rewrite E. apply text_compare_refl.
Qed.

Lemma older_than_created_before (cutoff : datetime) (r : Row.t) :
  valid_datetime cutoff = true -> stamped r ->
  older_than (isoformat cutoff) r = true <-> created_before cutoff r.
Proof.
  intros Vc (t & Vt & Et). unfold older_than, created_before. split.
  - intros H. exists t. repeat split; try assumption.
    rewrite Et in H. now apply text_ltb_isoformat in H.
  - intros (t' & Vt' & Et' & P). rewrite Et'.
    now apply text_ltb_isoformat.
Qed.

Lemma filter_split_length {A} (f : A -> bool) (l : list A) :
  (length (List.filter f l)
   + length (List.filter (fun x => negb (f x)) l) = length l)%nat.
Proof.
  induction l as [|a l IH]; simpl; [reflexivity|].
  destruct (f a); simpl; lia.
Qed.

Lemma filter_none {A} (f : A -> bool) (l : list A) :
  (forall x, In x l -> f x = false) -> List.filter f l = [].
Proof.
  induction l as [|a l IH]; simpl; intros H; [reflexivity|].
  rewrite (H a) by auto. apply IH. auto.
Qed.

Lemma filter_all {A} (f : A -> bool) (l : list A) :
  (forall x, In x l -> f x = true) -> List.filter f l = l.
Proof.
  induction l as [|a l IH]; simpl; intros H; [reflexivity|].
  rewrite (H a) by auto. f_equal. apply IH. auto.
Qed.

Section Purge.

Variable exc_str : exn -> pystr.

Lemma delete_old_entries_eq (now cutoff : datetime) (d : Database) :
  minus_days now 30 = Some cutoff ->
  delete_old_entries exc_str now d =
  (inr (deleted_report
          (Z.of_nat (length (List.filter (older_than (isoformat cutoff))
                                         (births d))))),
   {| births := List.filter (fun r => negb (older_than (isoformat cutoff) r))
                            (births d);
      sqlite_sequence := sqlite_sequence d |}).
Proof.
  intros E. unfold delete_old_entries, delete_old_entries_try.
  rewrite E. reflexivity.
Qed.

(** C7. At a clock reading [now] the purge takes as cutoff the moment
    thirty days before [now]: the date of the calendar whose day number is 30
    less than that of [now], at the same time of day, and no other moment. It
    answers with the number [n] of rows it deleted, which is the number of
    rows that were created before the cutoff; it keeps, as they are and in
    their order, exactly the rows that were not created before the cutoff,
    and gives out no rowid again. When no row was created before the cutoff
    it answers 0 and leaves the table as it is. A second purge, at the same
    clock reading or at any later one by which no row that was kept has
    become older than thirty days, answers 0 and deletes nothing. *)
Theorem purge_deletes_exactly_the_older_rows (now : datetime) (d : Database) :
  valid_datetime now = true -> 2 <= year now ->
  Forall stamped (births d) ->
  exists cutoff keep,
    minus_days now 30 = Some cutoff /\
    valid_datetime cutoff = true /\
    toordinal cutoff = toordinal now - 30 /\
    time_of_day cutoff = time_of_day now /\
    (forall c, valid_datetime c = true ->
               toordinal c = toordinal now - 30 ->
               time_of_day c = time_of_day now -> c = cutoff) /\
    let d' := snd (delete_old_entries exc_str now d) in
    let n := Z.of_nat (length (births d)) - Z.of_nat (length (births d')) in
    fst (delete_old_entries exc_str now d) =
      inr (Deleted (py "تم حذف " ++ str_of_int n ++ py " إدخالات قديمة") n) /\
    n = Z.of_nat (length (List.filter (fun r => negb (keep r)) (births d))) /\
    births d' = List.filter keep (births d) /\
    (forall r, In r (births d) ->
               keep r = true <-> ~ created_before cutoff r) /\
    (forall r, In r (births d') <->
               In r (births d) /\ ~ created_before cutoff r) /\
    sqlite_sequence d' = sqlite_sequence d /\
    ((forall r, In r (births d) -> ~ created_before cutoff r) ->
     delete_old_entries exc_str now d =
     (inr (Deleted (py "تم حذف " ++ str_of_int 0 ++ py " إدخالات قديمة") 0),
      d)) /\
    delete_old_entries exc_str now d' =
    (inr (Deleted (py "تم حذف " ++ str_of_int 0 ++ py " إدخالات قديمة") 0),
     d') /\
    (forall now2 cutoff2,
       valid_datetime now2 = true -> minus_days now2 30 = Some cutoff2 ->
       (forall r, In r (births d) ->
                  created_before cutoff2 r -> created_before cutoff r) ->
       delete_old_entries exc_str now2 d' =
       (inr (Deleted (py "تم حذف " ++ str_of_int 0 ++ py " إدخالات قديمة") 0),
        d')).
Proof.
  intros V Hy St.
  destruct (minus_30_days now V Hy) as (cutoff & E & Vc).
  set (old := older_than (isoformat cutoff)).
  exists cutoff, (fun r => negb (old r)).
  pose proof (valid_datetime_bounds now V) as B.
  destruct (minus_days_ordinal now cutoff 30 ltac:(lia) E) as [Ho Ht].
  split; [exact E|]. split; [exact Vc|].
  split; [exact Ho|]. split; [exact Ht|].
  split.
  { intros c Vx Hox Htx. apply toordinal_inj; congruence. }
  pose proof (delete_old_entries_eq now cutoff d E) as Eq. fold old in Eq.
  unfold deleted_report in Eq.
  assert (Hkeep : forall r, In r (births d) ->
            negb (old r) = true <-> ~ created_before cutoff r).
  { intros r Hr. rewrite List.Forall_forall in St.
    rewrite <- (older_than_created_before cutoff r Vc (St r Hr)).
    fold old. destruct (old r); simpl; split; congruence. }
  assert (Hlen : Z.of_nat (length (births d))
                 - Z.of_nat (length (List.filter (fun r => negb (old r))
                                                 (births d)))
                 = Z.of_nat (length (List.filter old (births d)))).
  { pose proof (filter_split_length old (births d)). lia. }
  assert (Hnone : forall (now2 cutoff2 : datetime) (d2 : Database),
            minus_days now2 30 = Some cutoff2 ->
            (forall r, In r (births d2) ->
                       older_than (isoformat cutoff2) r = false) ->
            delete_old_entries exc_str now2 d2 =
            (inr (Deleted (py "تم حذف " ++ str_of_int 0
                           ++ py " إدخالات قديمة") 0), d2)).
  { intros now2 cutoff2 d2 E2 Hno.
    rewrite (delete_old_entries_eq now2 cutoff2 d2 E2).
    unfold deleted_report. f_equal.
    - rewrite (filter_none (older_than (isoformat cutoff2)));
        [reflexivity | exact Hno].
    - destruct d2 as [rows top]. cbn [births sqlite_sequence]. f_equal.
      apply filter_all. intros r Hr. cbn [births] in Hno.
      now rewrite (Hno r Hr). }
  cbv zeta.
  split; [rewrite Eq; cbn [fst snd births]; rewrite Hlen; reflexivity|].
  split.
  { rewrite Eq; cbn [fst snd births]. rewrite Hlen. do 2 f_equal.
    apply List.filter_ext. intros r. now rewrite negb_involutive. }
  split; [rewrite Eq; reflexivity|].
  split; [exact Hkeep|].
  split.
  { intros r. rewrite Eq; cbn [snd births]. rewrite filter_In. split.
    - intros [Hr Hk]. split; [exact Hr | now apply Hkeep].
    - intros [Hr Hn]. split; [exact Hr | now apply Hkeep]. }
  split; [rewrite Eq; reflexivity|].
  split.
  { intros Hno. apply (Hnone now cutoff d E).
    intros r Hr. apply (proj2 (Hkeep r Hr)) in Hno; [|exact Hr].
    fold old. now destruct (old r). }
  split.
  { apply (Hnone now cutoff _ E). rewrite Eq; cbn [snd births].
    intros r Hr. apply filter_In in Hr as [_ Hr].
    fold old. now destruct (old r). }
  intros now2 cutoff2 V2 E2 Hlater.
  apply (Hnone now2 cutoff2 _ E2). rewrite Eq; cbn [snd births].
  intros r Hr. apply filter_In in Hr as [Hr Hk].
  pose proof (minus_days_valid now2 cutoff2 V2 E2) as Vc2.
  rewrite List.Forall_forall in St.
  destruct (older_than (isoformat cutoff2) r) eqn:Ho2; [|reflexivity].
  apply (older_than_created_before cutoff2 r Vc2 (St r Hr)) in Ho2.
  apply Hlater in Ho2; [|exact Hr].
  apply (proj1 (Hkeep r Hr)) in Hk. contradiction.
Qed.

End Purge.

(** ** Rate limiter *)

Lemma open_window_window (name : string) (t : float) (l : limiter) :
  window (open_window name t l) name t 0.
Proof. split; cbn; apply lookup_insert_eq. Qed.

Lemma open_window_twice (name : string) (t : float) (l : limiter) :
  open_window name t (open_window name t l) = open_window name t l.
Proof. unfold open_window; cbn. now rewrite !insert_insert_eq. Qed.

Lemma count_call_window (name : string) (t : float) (c : Z)
    (l : limiter) :
  window l name t c -> window (count_call name c l) name t (c + 1).
Proof. intros [Ht Hc]. split; cbn; [exact Ht | apply lookup_insert_eq]. Qed.

Lemma count_or_reject_window (calls : Z) (name : string) (t : float) (c : Z)
    (l : limiter) :
  window l name t c ->
  count_or_reject calls name l =
  if calls <=? c then (inl too_many_requests, l)
  else (inr tt, count_call name c l).
Proof. intros [_ Hc]. unfold count_or_reject. now rewrite Hc. Qed.

Lemma renew_elapsed (period : Z) (name : string) (now t : float)
    (l : limiter) :
  last_reset l !! name = Some t -> ~ within period t now ->
  renew period name now l = inr (open_window name now l).
Proof.
  intros Ht Hout. unfold renew. rewrite Ht. unfold within in Hout.
  now destruct (elapsed period t now).
Qed.

Lemma renew_within (period : Z) (name : string) (now t : float)
    (l : limiter) :
  last_reset l !! name = Some t -> within period t now ->
  renew period name now l = inr l.
Proof.
  intros Ht Hin. unfold renew. rewrite Ht. unfold within in Hin.
  now rewrite Hin.
Qed.

Lemma within_dec (period : Z) (t now : float) :
  within period t now \/ ~ within period t now.
Proof.
  unfold within. destruct (elapsed period t now); [right | left]; congruence.
Qed.

(** The first call under a name is counted in a window opened at that call. *)
Lemma check_rate_first (calls period : Z) (name : string) (now : float)
    (l : limiter) :
  last_reset l !! name = None ->
  check_rate calls period name now l =
  count_or_reject calls name (open_window name now l).
Proof.
  intros Hnone. unfold check_rate, current_window, first_use. rewrite Hnone.
  destruct (within_dec period now now) as [Hin|Hout].
  - now rewrite (renew_within period name now now)
      by (assumption || apply open_window_window).
  - rewrite (renew_elapsed period name now now)
      by (assumption || apply open_window_window).
    now rewrite open_window_twice.
Qed.

(** A call after the end of the window is counted in a new window opened at
    that call. *)
Lemma check_rate_elapsed (calls period : Z) (name : string) (now t : float)
    (l : limiter) :
  last_reset l !! name = Some t -> ~ within period t now ->
  check_rate calls period name now l =
  count_or_reject calls name (open_window name now l).
Proof.
  intros Ht Hout. unfold check_rate, current_window, first_use. rewrite Ht.
  now rewrite (renew_elapsed period name now t) by assumption.
Qed.

(** A call in the window is counted in it. *)
Lemma check_rate_within (calls period : Z) (name : string) (now t : float)
    (l : limiter) :
  last_reset l !! name = Some t -> within period t now ->
  check_rate calls period name now l = count_or_reject calls name l.
Proof.
  intros Ht Hin. unfold check_rate, current_window, first_use. rewrite Ht.
  now rewrite (renew_within period name now t) by assumption.
Qed.


Lemma elapsed_not_within (period : Z) (t now : float) :
  elapsed period t now = true -> ~ within period t now.
Proof. intros H. unfold within. congruence. Qed.

Lemma check_rate_opens (calls period : Z) (name : string) (now : float)
    (l : limiter) :
  opens_window period name now l ->
  check_rate calls period name now l =
  count_or_reject calls name (open_window name now l).
Proof.
  intros [Hnone|(t & Ht & He)].
  - now apply check_rate_first.
  - apply (check_rate_elapsed calls period name now t); [assumption|].
    now apply elapsed_not_within.
Qed.



(** The test of the wrapper is made on the difference of two binary64
    readings, as the subtraction rounds it. With one call allowed per 60
    seconds, a call at reading 60.3 after one at reading 0.3 finds the
    difference to be 60.0 and passes in a window of its own; so does a call
    at reading 60 after one at reading 2^-48, a moment less than 60 seconds
    earlier. *)
Example the_difference_is_rounded :
  elapsed 60 0x1.3333333333333p-2 0x1.e266666666666p+5 = true /\
  fst (calls_at 1 60 "save_data"
         [0x1.3333333333333p-2; 0x1.e266666666666p+5]%float new_limiter)
  = [inr tt; inr tt] /\
  fst (calls_at 1 60 "save_data" [0x1p-48; 60]%float new_limiter)
  = [inr tt; inr tt] /\
  fst (calls_at 1 60 "save_data" [0; 59]%float new_limiter)
  = [inr tt; inl too_many_requests].
Proof. repeat split; vm_compute; reflexivity. Qed.

(** Limit 3 per 60 seconds: three calls pass, the fourth is rejected, and a
    call 60 seconds after the first passes again. *)
Example rate_limit_3_per_60 :
  fst (calls_at 3 60 "search_data" [100; 101; 102; 103; 160]%float
               new_limiter)
  = [inr tt; inr tt; inr tt; inl too_many_requests; inr tt].
Proof. vm_compute. reflexivity. Qed.

(** C8. A call rejected with the 429 error leaves the limiter as the upkeep
    of the window left it: the rejection writes neither dictionary. For a
    positive limit, and whenever the call falls inside the window, that is
    the limiter as it was before the call: the counter is not raised and the
    start of the window is not moved. *)
Theorem rejection_leaves_limiter_unchanged
    (calls period : Z) (name : string) (now : float) (l l' : limiter) :
  check_rate calls period name now l = (inl too_many_requests, l') ->
  current_window period name now l = inr l' /\
  (0 < calls -> l' = l) /\
  (forall t, last_reset l !! name = Some t -> within period t now -> l' = l).
Proof.
  intros H.
  assert (Hcr : forall l1, count_or_reject calls name l1
                           = (inl too_many_requests, l') -> l1 = l').
  { intros l1. unfold count_or_reject.
    destruct (call_count l1 !! name) as [c|]; [|discriminate].
    destruct (calls <=? c); [|discriminate]. congruence. }
  split; [|split].
  - unfold check_rate in H.
    destruct (current_window period name now l) as [e|l1] eqn:E.
    + unfold current_window, renew in E.
      destruct (last_reset (first_use name now l) !! name);
        [destruct (elapsed _ _ _); discriminate|].
      injection E as <-. discriminate.
    + now rewrite (Hcr l1 H).
  - intros Hpos.
    assert (Hfresh : count_or_reject calls name (open_window name now l)
                     <> (inl too_many_requests, l')).
    { rewrite (count_or_reject_window calls name now 0 _
                 (open_window_window name now l)).
      destruct (Z.leb_spec calls 0); [lia | discriminate]. }
    destruct (last_reset l !! name) as [t|] eqn:Ht.
    + destruct (within_dec period t now) as [Hin|Hout].
      * rewrite (check_rate_within calls period name now t l Ht Hin) in H.
        symmetry. now apply Hcr.
      * rewrite (check_rate_elapsed calls period name now t l Ht Hout) in H.
        contradiction.
    + rewrite (check_rate_first calls period name now l Ht) in H.
      contradiction.
  - intros t Ht Hin.
    rewrite (check_rate_within calls period name now t l Ht Hin) in H.
    symmetry. now apply Hcr.
Qed.

Lemma rejection_leaves_limiter_unchanged_witness :
  check_rate 1 60 "save_data" 1 one_call = (inl too_many_requests, one_call)
  /\ current_window 60 "save_data" 1 one_call = inr one_call.
Proof.
  assert (H : check_rate 1 60 "save_data" 1 one_call
              = (inl too_many_requests, one_call))
    by (vm_compute; reflexivity).
  split; [exact H|].
  exact (proj1 (rejection_leaves_limiter_unchanged
                  1 60 "save_data" 1 one_call one_call H)).
Defined.

Lemma purge_deletes_exactly_the_older_rows_witness :
  valid_datetime noon_1_march = true /\ 2 <= year noon_1_march /\
  Forall stamped (births sample_db) /\
  minus_days noon_1_march 30 = Some (at_time 2024 1 31 12 0 0 0) /\
  fst (delete_old_entries library_str noon_1_march sample_db) =
    inr (Deleted (py "تم حذف 1 إدخالات قديمة") 1) /\
  births (snd (delete_old_entries library_str noon_1_march sample_db)) = [] /\
  exists cutoff,
    minus_days noon_1_march 30 = Some cutoff /\
    toordinal cutoff = toordinal noon_1_march - 30 /\
    time_of_day cutoff = time_of_day noon_1_march /\
    let n := Z.of_nat (length (births sample_db))
             - Z.of_nat (length (births (snd (delete_old_entries
                  library_str noon_1_march sample_db)))) in
    fst (delete_old_entries library_str noon_1_march sample_db) =
      inr (Deleted (py "تم حذف " ++ str_of_int n ++ py " إدخالات قديمة") n).
Proof.
  assert (V : valid_datetime noon_1_march = true) by reflexivity.
  assert (Y : 2 <= year noon_1_march) by (vm_compute; discriminate).
  assert (S : Forall stamped (births sample_db)).
  { repeat constructor. exists (at_time 2024 1 15 8 30 0 250000).
    split; reflexivity. }
  split; [exact V|]. split; [exact Y|]. split; [exact S|].
  split; [vm_compute; reflexivity|].
  split; [vm_compute; reflexivity|].
  split; [vm_compute; reflexivity|].
  destruct (purge_deletes_exactly_the_older_rows library_str
              noon_1_march sample_db V Y S)
    as (cutoff & keep & E & _ & Ho & Ht & _ & Hfst & _).
  exists cutoff.
  split; [exact E|]. split; [exact Ho|]. split; [exact Ht|]. exact Hfst.
Defined.

(** ** Submit and search *)

Section SubmitSearch.

Variable exc_str : exn -> pystr.

Lemma matches_eq (f m : Z) (r : Row.t) :
  matches f m r = true <-> Row.father_id r = f /\ Row.mother_id r = m.
Proof. unfold matches. now rewrite andb_true_iff, !Z.eqb_eq. Qed.

Lemma select_births_inr (d : Database) (f m : Z) (rows : list Row.t) :
  select_births d f m = inr rows ->
  sqlite_int f && sqlite_int m = true /\
  rows = List.filter (matches f m) (births d).
Proof.
  unfold select_births. destruct (sqlite_int f && sqlite_int m);
    [|discriminate].
  intros [= <-]. split; reflexivity.
Qed.

(** What a submission that succeeds has found and done. *)
Lemma save_data_success (now : datetime) (data : BirthData.t)
    (d d' : Database) (b : body) :
  save_data exc_str now data d = (inr b, d') ->
  pystr_in (BirthData.father_id_type data) id_types = true /\
  pystr_in (BirthData.mother_id_type data) id_types = true /\
  select_births d (BirthData.father_id data) (BirthData.mother_id data)
    = inr [] /\
  insert_birth d (BirthData.father_id data) (BirthData.mother_id data)
    (BirthData.mother_name data) (BirthData.hospital_name data)
    (BirthData.birth_date data) (isoformat now) = inr d'.
Proof.
  unfold save_data, save_data_try, save_data_check, save_data_insert.
  destruct (pystr_in (BirthData.father_id_type data) id_types);
    [|discriminate].
  destruct (pystr_in (BirthData.mother_id_type data) id_types);
    [|discriminate].
  cbn [negb].
  destruct (select_births d _ _) as [e|[|r rows]]; try discriminate.
  destruct (insert_birth d _ _ _ _ _ _) as [e|d1]; [discriminate|].
  cbn [guarded]. intros [= _ <-]. repeat split; reflexivity.
Qed.

(** C1 (what the code does). A submission whose pair is already in the
    table inserts nothing, and the 400 error that names the hospital of the
    existing row is caught by the handler's own [except Exception] and
    answered as a 500 error. *)
Theorem duplicate_submission_is_answered_500 (now : datetime)
    (data : BirthData.t) (d : Database) (r : Row.t) (rows : list Row.t) :
  pystr_in (BirthData.father_id_type data) id_types = true ->
  pystr_in (BirthData.mother_id_type data) id_types = true ->
  select_births d (BirthData.father_id data) (BirthData.mother_id data)
    = inr (r :: rows) ->
  save_data_try now data d = (inl (already_saved (Row.hospital_name r)), d)
  /\ save_data exc_str now data d
     = (inl (HTTPException 500
               (exc_str (HTTPException 400
                  (py "تم إدخال هذه البيانات بالفعل في مستشفى "
                   ++ Row.hospital_name r)))), d)
  /\ status_of (already_saved (Row.hospital_name r)) = 400
  /\ status_of (server_error exc_str (already_saved (Row.hospital_name r)))
     = 500.
Proof.
  intros Hf Hm Hsel.
  assert (E : save_data_try now data d
              = (inl (already_saved (Row.hospital_name r)), d)).
  { unfold save_data_try, save_data_check. now rewrite Hf, Hm, Hsel. }
  split; [exact E|]. split; [|split; reflexivity].
  unfold save_data. now rewrite E.
Qed.

(** C2 (what the code does). A search returns the rows that match both
    ids, all of them and no other; when none matches, the 404 error is caught
    by the handler's own [except Exception] and answered as a 500 error. *)
Theorem empty_search_is_answered_500 (father_id mother_id : Z)
    (d : Database) :
  sqlite_int father_id && sqlite_int mother_id = true ->
  let found := List.filter (matches father_id mother_id) (births d) in
  (forall r, In r found <->
             In r (births d) /\ Row.father_id r = father_id
             /\ Row.mother_id r = mother_id) /\
  (found <> [] ->
   search_data exc_str father_id mother_id d = (inr (Data found), d)) /\
  (found = [] ->
   search_data exc_str father_id mother_id d
   = (inl (HTTPException 500
             (exc_str (HTTPException 404
                         (py "لم يتم العثور على بيانات.")))), d)).
Proof.
  intros Hint found. split; [|split].
  - intros r. unfold found. rewrite filter_In, matches_eq. tauto.
  - intros Hne. unfold search_data, search_data_try, select_births.
    rewrite Hint. fold found. destruct found; [congruence | reflexivity].
  - intros He. unfold search_data, search_data_try, select_births.
    rewrite Hint. fold found. now rewrite He.
Qed.

(** Once a submission has been saved, the lookup of its pair finds its row,
    and that row alone. *)
Lemma saved_pair_is_found (now : datetime) (data : BirthData.t)
    (d d1 : Database) (b : body) :
  save_data exc_str now data d = (inr b, d1) ->
  exists r,
    select_births d1 (BirthData.father_id data) (BirthData.mother_id data)
      = inr [r] /\
    Row.hospital_name r = BirthData.hospital_name data.
Proof.
  intros Hok.
  destruct (save_data_success now data d d1 b Hok) as (_ & _ & Hsel & Hins).
  apply select_births_inr in Hsel as [Hint Hnone].
  unfold insert_birth in Hins.
  destruct (last_rowid d =? max_rowid); [discriminate|].
  injection Hins as <-. unfold select_births. rewrite Hint.
  cbn [births]. rewrite List.filter_app, <- Hnone. cbn [List.filter app].
  unfold matches at 1. cbn [Row.father_id Row.mother_id].
  rewrite !Z.eqb_refl. cbn [andb]. eexists. split; reflexivity.
Qed.

(** A submission of a pair that a saved submission has is refused by the
    lookup, and writes nothing. *)
Lemma second_submission_refused (now1 now2 : datetime)
    (data1 data2 : BirthData.t) (d d1 : Database) (b : body) :
  save_data exc_str now1 data1 d = (inr b, d1) ->
  BirthData.father_id data2 = BirthData.father_id data1 ->
  BirthData.mother_id data2 = BirthData.mother_id data1 ->
  pystr_in (BirthData.father_id_type data2) id_types = true ->
  pystr_in (BirthData.mother_id_type data2) id_types = true ->
  save_data_try now2 data2 d1
    = (inl (already_saved (BirthData.hospital_name data1)), d1).
Proof.
  intros Hok Hf Hm Tf Tm.
  destruct (saved_pair_is_found now1 data1 d d1 b Hok) as (r & Hsel & Hr).
  unfold save_data_try, save_data_check.
  now rewrite Tf, Tm, Hf, Hm, Hsel, Hr.
Qed.

(** C10. A row has no column for the id types: the table a submission
    leaves does not depend on them. And the lookup before the insert is by
    the two ids alone: once a submission has been saved, a submission with
    the same two ids is refused by that lookup, whatever its id types and
    other fields, with the error that names the hospital of the first (caught
    and answered as a 500 error), and the table is left as it was. *)
Theorem duplicate_detection_ignores_id_types (now1 now2 : datetime)
    (data1 data2 : BirthData.t) (d d1 : Database) (b : body) :
  save_data exc_str now1 data1 d = (inr b, d1) ->
  BirthData.father_id data2 = BirthData.father_id data1 ->
  BirthData.mother_id data2 = BirthData.mother_id data1 ->
  pystr_in (BirthData.father_id_type data2) id_types = true ->
  pystr_in (BirthData.mother_id_type data2) id_types = true ->
  save_data_try now2 data2 d1
    = (inl (already_saved (BirthData.hospital_name data1)), d1) /\
  save_data exc_str now2 data2 d1
    = (inl (server_error exc_str
              (already_saved (BirthData.hospital_name data1))), d1) /\
  (BirthData.mother_name data2 = BirthData.mother_name data1 ->
   BirthData.hospital_name data2 = BirthData.hospital_name data1 ->
   BirthData.birth_date data2 = BirthData.birth_date data1 ->
   save_data exc_str now1 data2 d = (inr b, d1)).
Proof.
  intros Hok Hf Hm Tf Tm.
  pose proof (second_submission_refused now1 now2 data1 data2 d d1 b
                Hok Hf Hm Tf Tm) as E.
  destruct (save_data_success now1 data1 d d1 b Hok) as (Tf1 & Tm1 & _).
  split; [exact E|]. split.
  - unfold save_data. now rewrite E.
  - intros Hn Hh Hd. rewrite <- Hok.
    unfold save_data, save_data_try, save_data_check, save_data_insert.
    now rewrite Tf, Tm, Tf1, Tm1, Hf, Hm, Hn, Hh, Hd.
Qed.

End SubmitSearch.

(** ** Row ids *)

Lemma last_rowid_bounded (d : Database) :
  (forall r, In r (births d) -> Row.id r <= sqlite_sequence d) ->
  last_rowid d = sqlite_sequence d.
Proof.
  unfold last_rowid. generalize (sqlite_sequence d) as top.
  induction (births d) as [|r rows IH]; intros top Hb; cbn; [reflexivity|].
  rewrite IH by (intros r' Hr'; apply Hb; now right).
  specialize (Hb r (or_introl eq_refl)). lia.
Qed.

Lemma NoDup_map_filter {A B} (f : A -> B) (g : A -> bool) (l : list A) :
  List.NoDup (map f l) -> List.NoDup (map f (List.filter g l)).
Proof.
  induction l as [|a l IH]; cbn; intros H; [constructor|].
  apply List.NoDup_cons_iff in H as [Hnotin Hnd].
  destruct (g a); cbn; [|now apply IH].
  apply List.NoDup_cons_iff. split; [|now apply IH].
  intros Hin. apply Hnotin. apply in_map_iff in Hin as (x & Hx & Hin).
  apply filter_In in Hin as [Hin _]. apply in_map_iff. now exists x.
Qed.

(** A statement keeps the store well formed, never lowers the high-water
    mark, and gives a new row an id above it. *)
Lemma store_step_ok (d d' : Database) :
  store_ok d -> store_step d d' ->
  store_ok d' /\ sqlite_sequence d <= sqlite_sequence d' /\
  (forall r, In r (births d') ->
             In r (births d) \/ sqlite_sequence d < Row.id r).
Proof.
  intros [Hb Hnd] Hstep. unfold store_ok.
  destruct Hstep as [|f m name hospital date created d' Hins|cutoff].
  - repeat split; (assumption || lia || auto).
  - unfold insert_birth in Hins. rewrite (last_rowid_bounded d Hb) in Hins.
    destruct (sqlite_sequence d =? max_rowid); [discriminate|].
    injection Hins as <-. cbn [births sqlite_sequence].
    split; [split|split].
    + intros r Hr. apply in_app_iff in Hr as [Hr|[<-|[]]].
      * specialize (Hb r Hr). lia.
      * cbn [Row.id]. lia.
    + rewrite map_app. cbn [map Row.id].
      apply List.NoDup_app.
      * assumption.
      * repeat constructor. intros [].
      * intros x Hx [<-|[]]. apply in_map_iff in Hx as (r & Hr & Hin).
        specialize (Hb r Hin). lia.
    + lia.
    + intros r Hr. apply in_app_iff in Hr as [Hr|[<-|[]]];
        [now left | right; cbn [Row.id]; lia].
  - cbn [delete_births snd births sqlite_sequence]. split; [split|split].
    + intros r Hr. apply filter_In in Hr as [Hr _]. now apply Hb.
    + now apply NoDup_map_filter.
    + lia.
    + intros r Hr. apply filter_In in Hr as [Hr _]. now left.
Qed.

Section RowIds.

Variable exc_str : exn -> pystr.

Lemma guarded_snd {S A : Type} (r : (exn + A) * S) :
  snd (guarded exc_str r) = snd r.
Proof. now destruct r as [[e|a] s]. Qed.

Lemma save_data_step (now : datetime) (data : BirthData.t) (d : Database) :
  store_step d (snd (save_data exc_str now data d)).
Proof.
  unfold save_data. rewrite guarded_snd.
  unfold save_data_try, save_data_insert.
  destruct (save_data_check d data); [constructor|].
  destruct (insert_birth d _ _ _ _ _ _) as [e|d'] eqn:E; [constructor|].
  cbn. eapply step_insert. exact E.
Qed.

Lemma delete_old_entries_step (now : datetime) (d : Database) :
  store_step d (snd (delete_old_entries exc_str now d)).
Proof.
  unfold delete_old_entries. rewrite guarded_snd.
  unfold delete_old_entries_try.
  destruct (minus_days now 30) as [cutoff|]; [|constructor].
  apply (step_delete d (isoformat cutoff)).
Qed.

Lemma search_data_step (f m : Z) (d : Database) :
  snd (search_data exc_str f m d) = d.
Proof.
  unfold search_data. rewrite guarded_snd. unfold search_data_try.
  destruct (select_births d f m) as [e|[|r rows]]; reflexivity.
Qed.

Lemma read_root_step (rendering : option pystr) (d : Database) :
  snd (read_root rendering d) = d.
Proof. now destruct rendering. Qed.

Lemma rate_limit_step {A : Type} (calls period : Z) (name : string)
    (func : Database -> (exn + A) * Database) (now : float) (l : limiter)
    (d : Database) :
  store_step d (snd (func d)) ->
  store_step d (snd (snd (rate_limit calls period name func now (l, d)))).
Proof.
  intros Hf. unfold rate_limit. cbn [fst snd].
  destruct (check_rate calls period name now l) as [[e|u] l'].
  - constructor.
  - destruct (func d) as [r s]. exact Hf.
Qed.

Lemma serve_step (c : clock) (req : request) (a : App) :
  store_step (db a) (db (snd (serve exc_str c req a))).
Proof.
  destruct req as [|data| |f m]; cbn [serve].
  - assert (Hr : store_step (db a)
                   (snd (read_root (rendering c) (db a))))
      by (rewrite read_root_step; constructor).
    pose proof (rate_limit_step 100 60 "read_root"
                  (read_root (rendering c)) (time_time c) (root_limiter a)
                  (db a) Hr) as H.
    destruct (rate_limit _ _ _ _ _ _) as [r [l d]]. exact H.
  - pose proof (rate_limit_step 10 60 "save_data"
                  (save_data exc_str (datetime_now c) data) (time_time c)
                  (save_limiter a) (db a)
                  (save_data_step _ _ _)) as H.
    destruct (rate_limit _ _ _ _ _ _) as [r [l d]]. exact H.
  - pose proof (rate_limit_step 5 3600 "delete_old_entries"
                  (delete_old_entries exc_str (datetime_now c)) (time_time c)
                  (delete_limiter a) (db a)
                  (delete_old_entries_step _ _)) as H.
    destruct (rate_limit _ _ _ _ _ _) as [r [l d]]. exact H.
  - assert (Hs : store_step (db a)
                   (snd (search_data exc_str f m (db a))))
      by (rewrite search_data_step; constructor).
    pose proof (rate_limit_step 20 60 "search_data"
                  (search_data exc_str f m) (time_time c)
                  (search_limiter a) (db a) Hs) as H.
    destruct (rate_limit _ _ _ _ _ _) as [r [l d]]. exact H.
Qed.

Lemma serve_all_ok (reqs : list (clock * request)) :
  forall a, store_ok (db a) ->
  store_ok (db (serve_all exc_str reqs a)) /\
  sqlite_sequence (db a) <= sqlite_sequence (db (serve_all exc_str reqs a)) /\
  (forall r, In r (births (db (serve_all exc_str reqs a))) ->
             In r (births (db a)) \/ sqlite_sequence (db a) < Row.id r).
Proof.
  induction reqs as [|[c req] reqs IH]; intros a Hok; cbn [serve_all].
  - repeat split; (apply Hok || lia || auto).
  - destruct (store_step_ok _ _ Hok (serve_step c req a))
      as (Hok1 & Hle1 & Hnew1).
    destruct (IH _ Hok1) as (Hok2 & Hle2 & Hnew2).
    repeat split; try apply Hok2; [lia|].
    intros r Hr. destruct (Hnew2 r Hr) as [Hin|Hgt]; [|right; lia].
    destruct (Hnew1 r Hin); [now left | right; lia].
Qed.

(** C9. Over any history of requests served from a new database: the id
    of a row is the one the store gave it, one above the largest id it has
    ever given; no two rows of the table share an id; and a row that appears
    later has an id above every id given before, so that a row found later
    under the id of an earlier row is that row, also when rows were purged in
    between. *)
Theorem ids_are_unique_and_never_reused
    (before after : list (clock * request)) :
  let a1 := serve_all exc_str before new_app in
  let a2 := serve_all exc_str after a1 in
  List.NoDup (map Row.id (births (db a2))) /\
  (forall r, In r (births (db a1)) ->
             1 <= Row.id r <= sqlite_sequence (db a1)) /\
  sqlite_sequence (db a1) <= sqlite_sequence (db a2) /\
  (forall r, In r (births (db a2)) ->
             In r (births (db a1)) \/ sqlite_sequence (db a1) < Row.id r) /\
  (forall r1 r2, In r1 (births (db a1)) -> In r2 (births (db a2)) ->
                 Row.id r1 = Row.id r2 -> r1 = r2) /\
  (forall d f m name hospital date created d',
     store_ok d ->
     insert_birth d f m name hospital date created = inr d' ->
     exists r, births d' = births d ++ [r] /\
               Row.id r = sqlite_sequence d + 1 /\
               sqlite_sequence d' = Row.id r).
Proof.
  intros a1 a2.
  assert (Hinit : store_ok (db new_app))
    by (split; [intros r [] | constructor]).
  destruct (serve_all_ok before new_app Hinit) as (Hok1 & Hle0 & Hnew0).
  fold a1 in Hok1, Hle0, Hnew0.
  destruct (serve_all_ok after a1 Hok1) as (Hok2 & Hle & Hnew).
  fold a2 in Hok2, Hle, Hnew.
  split; [apply Hok2|]. split; [|split; [exact Hle|split; [exact Hnew|split]]].
  - intros r Hr. split; [|now apply Hok1].
    destruct (Hnew0 r Hr) as [[]|Hgt]. cbn in Hgt. lia.
  - intros r1 r2 H1 H2 E. destruct (Hnew r2 H2) as [Hin|Hgt].
    + destruct Hok1 as [_ Hnd]. clear - H1 Hin E Hnd.
      induction (births (db a1)) as [|r rows IH]; [destruct H1|].
      cbn in Hnd. apply List.NoDup_cons_iff in Hnd as [Hnotin Hnd].
      destruct H1 as [<-|H1], Hin as [<-|Hin].
      * reflexivity.
      * exfalso. apply Hnotin. rewrite E. now apply in_map.
      * exfalso. apply Hnotin. rewrite <- E. now apply in_map.
      * now apply IH.
    + destruct Hok1 as [Hb _]. specialize (Hb r1 H1). lia.
  - intros d f m name hospital date created d' [Hb _] Hins.
    unfold insert_birth in Hins. rewrite (last_rowid_bounded d Hb) in Hins.
    destruct (sqlite_sequence d =? max_rowid); [discriminate|].
    injection Hins as <-. eexists. cbn. repeat split.
Qed.

End RowIds.

(** ** Two submissions of one pair *)

Section Interleaving.

Variable exc_str : exn -> pystr.

(** A submission whose two steps run one after the other is [save_data]. *)
Lemma task_steps_save_data (now : datetime) (data : BirthData.t)
    (d : Database) :
  let (t1, d1) := task_step exc_str now (Start data) d in
  task_step exc_str now t1 d1 =
  (Finished (fst (save_data exc_str now data d)),
   snd (save_data exc_str now data d)).
Proof.
  unfold save_data, save_data_try. cbn [task_step].
  destruct (save_data_check d data) as [e|u]; [reflexivity|].
  cbn [task_step].
  now destruct (guarded exc_str (save_data_insert d now data)).
Qed.

Lemma in_turn_save_data (now1 now2 : datetime) (data1 data2 : BirthData.t)
    (d : Database) :
  interleave exc_str (in_turn now1 now2) (Start data1) (Start data2) d =
  (Finished (fst (save_data exc_str now1 data1 d)),
   Finished (fst (save_data exc_str now2 data2
                    (snd (save_data exc_str now1 data1 d)))),
   snd (save_data exc_str now2 data2 (snd (save_data exc_str now1 data1 d)))).
Proof.
  unfold in_turn. cbn [interleave].
  pose proof (task_steps_save_data now1 data1 d) as H1.
  destruct (task_step exc_str now1 (Start data1) d) as [t1 d1].
  rewrite H1.
  pose proof (task_steps_save_data now2 data2
                (snd (save_data exc_str now1 data1 d))) as H2.
  destruct (task_step exc_str now2 (Start data2) _) as [t2 d2].
  now rewrite H2.
Qed.

(** A submission that fails leaves the table as it was. *)
Lemma save_data_failure (now : datetime) (data : BirthData.t)
    (d d' : Database) (e : exn) :
  save_data exc_str now data d = (inl e, d') -> d' = d.
Proof.
  unfold save_data, save_data_try, save_data_insert.
  destruct (save_data_check d data) as [e1|u]; cbn [guarded];
    [congruence|].
  destruct (insert_birth d _ _ _ _ _ _); cbn [guarded];
    [congruence | discriminate].
Qed.

(** C4 (as amended). Two submissions of one pair that are handled in turn,
    each running from its lookup to its answer before the other starts, as
    on one event loop: at most one succeeds; when the first succeeds the
    second writes nothing, and, its id types being of the enumeration, it is
    refused by the lookup with the error that names the hospital of the
    first. *)
Theorem submissions_in_turn_at_most_one_succeeds (now1 now2 : datetime)
    (data1 data2 : BirthData.t) (d : Database) :
  BirthData.father_id data2 = BirthData.father_id data1 ->
  BirthData.mother_id data2 = BirthData.mother_id data1 ->
  let r1 := save_data exc_str now1 data1 d in
  let r2 := save_data exc_str now2 data2 (snd r1) in
  interleave exc_str (in_turn now1 now2) (Start data1) (Start data2) d
    = (Finished (fst r1), Finished (fst r2), snd r2) /\
  ~ (succeeded (Finished (fst r1)) = true /\
     succeeded (Finished (fst r2)) = true) /\
  (succeeded (Finished (fst r1)) = true ->
   snd r2 = snd r1 /\
   (pystr_in (BirthData.father_id_type data2) id_types = true ->
    pystr_in (BirthData.mother_id_type data2) id_types = true ->
    save_data_try now2 data2 (snd r1)
      = (inl (already_saved (BirthData.hospital_name data1)), snd r1))).
Proof.
  intros Hf Hm r1 r2.
  split; [apply in_turn_save_data|].
  assert (Hsecond : forall b, fst r1 = inr b -> exists e, fst r2 = inl e).
  { intros b Hb.
    assert (Hok : save_data exc_str now1 data1 d = (inr b, snd r1)).
    { unfold r1 in *. destruct (save_data exc_str now1 data1 d) as [x y].
      cbn in *. now subst. }
    destruct (saved_pair_is_found exc_str now1 data1 d (snd r1) b Hok)
      as (r & Hsel & _).
    unfold r2, save_data, save_data_try, save_data_check.
    rewrite Hf, Hm, Hsel.
    destruct (negb (pystr_in (BirthData.father_id_type data2) id_types));
      [eexists; reflexivity|].
    destruct (negb (pystr_in (BirthData.mother_id_type data2) id_types));
      eexists; reflexivity. }
  split.
  - intros [S1 S2]. cbn [succeeded] in S1, S2.
    destruct (fst r1) as [e1|b1] eqn:E1; [discriminate|].
    destruct (Hsecond b1 eq_refl) as [e2 E2]. rewrite E2 in S2. discriminate.
  - intros S1. cbn [succeeded] in S1.
    destruct (fst r1) as [e1|b1] eqn:E1; [discriminate|].
    destruct (Hsecond b1 eq_refl) as [e2 E2]. split.
    + apply (save_data_failure now2 data2 (snd r1) (snd r2) e2).
      fold r2. rewrite <- E2. now destruct r2.
    + intros Tf Tm.
      apply (second_submission_refused exc_str now1 now2 data1 data2 d
               (snd r1) b1); try assumption.
      unfold r1 in *. destruct (save_data exc_str now1 data1 d) as [x y].
      cbn in *. now subst.
Qed.

End Interleaving.

(** C4 (as stated) fails: nothing makes the lookup and the insert of a
    submission one unit. When the statements of two submissions of one pair
    interleave, both lookups find no row, both inserts are made, and both
    submissions are answered with success. *)
Lemma interleaved_submissions_both_succeed :
  BirthData.father_id sample_data' = BirthData.father_id sample_data /\
  BirthData.mother_id sample_data' = BirthData.mother_id sample_data /\
  exists t1 t2 d,
    interleave library_str racing_schedule
               (Start sample_data) (Start sample_data') init_db
      = (t1, t2, d) /\
    succeeded t1 = true /\ succeeded t2 = true /\
    map Row.hospital_name
        (List.filter (matches 1001 2002) (births d))
      = [py "مستشفى بغداد"; py "مستشفى البصرة"].
Proof.
  split; [vm_compute; reflexivity|]. split; [vm_compute; reflexivity|].
  do 3 eexists. split; [vm_compute; reflexivity|].
  repeat split; vm_compute; reflexivity.
Qed.

Lemma submissions_in_turn_at_most_one_succeeds_witness :
  BirthData.father_id sample_data' = BirthData.father_id sample_data /\
  BirthData.mother_id sample_data' = BirthData.mother_id sample_data /\
  ~ (succeeded (Finished (fst (save_data library_str noon_1_march
                                 sample_data init_db))) = true /\
     succeeded (Finished (fst (save_data library_str noon_1_march
                                 sample_data'
                                 (snd (save_data library_str noon_1_march
                                         sample_data init_db))))) = true).
Proof.
  assert (Hf : BirthData.father_id sample_data'
               = BirthData.father_id sample_data)
    by (vm_compute; reflexivity).
  assert (Hm : BirthData.mother_id sample_data'
               = BirthData.mother_id sample_data)
    by (vm_compute; reflexivity).
  split; [exact Hf|]. split; [exact Hm|].
  exact (proj1 (proj2 (submissions_in_turn_at_most_one_succeeds
                         library_str noon_1_march noon_1_march
                         sample_data sample_data' init_db Hf Hm))).
Defined.

(** ** Validation *)

Lemma pystr_in_In (s : pystr) (l : list pystr) :
  pystr_in s l = true <-> In s l.
Proof.
  unfold pystr_in. rewrite bool_decide_eq_true. apply list_elem_of_In.
Qed.

Lemma literal_field_ok (v : option pystr) (s : pystr) :
  literal_field id_types v = inr s <-> v = Some s /\ In s id_types.
Proof.
  unfold literal_field. destruct v as [t|]; [|split; [discriminate|]].
  - destruct (pystr_in t id_types) eqn:E.
    + apply pystr_in_In in E. split; [intros [= <-]; auto|].
      now intros [[= <-] _].
    + split; [discriminate|]. intros [[= <-] Hin].
      apply pystr_in_In in Hin. congruence.
  - now intros [? _].
Qed.

Lemma int_field_ok (v : option Z) (n : Z) :
  int_field v = inr n <-> v = Some n.
Proof. unfold int_field. destruct v; split; congruence. Qed.

Lemma str_field_ok (v : option pystr) (s : pystr) :
  str_field 2 100 v = inr s <-> v = Some s /\ (2 <= length s <= 100)%nat.
Proof.
  unfold str_field. destruct v as [t|]; [|split; [discriminate|]].
  - destruct (Nat.ltb_spec (length t) 2).
    + split; [discriminate|]. intros [[= <-] ?]. lia.
    + destruct (Nat.ltb_spec 100 (length t)).
      * split; [discriminate|]. intros [[= <-] ?]. lia.
      * split; [intros [= <-]; split; [reflexivity | lia]|].
        now intros [[= <-] _].
  - now intros [? _].
Qed.

Lemma pattern_match_nil (is_digit : char -> bool) (s : pystr) :
  pattern_match is_digit [] s = true <-> s = [].
Proof. destruct s; cbn; split; congruence. Qed.

Lemma pattern_match_digit (is_digit : char -> bool) (p : list atom)
    (s : pystr) :
  pattern_match is_digit (Digit :: p) s = true <->
  exists c s', s = c :: s' /\ is_digit c = true /\
               pattern_match is_digit p s' = true.
Proof.
  destruct s as [|c s']; cbn [pattern_match].
  - split; [discriminate|]. intros (c & s' & E & _). discriminate.
  - rewrite andb_true_iff. split.
    + intros [Hc Hp]. now exists c, s'.
    + intros (c' & s'' & [= -> ->] & Hc & Hp). now split.
Qed.

Lemma pattern_match_lit (is_digit : char -> bool) (a : char)
    (p : list atom) (s : pystr) :
  pattern_match is_digit (Lit a :: p) s = true <->
  exists s', s = a :: s' /\ pattern_match is_digit p s' = true.
Proof.
  destruct s as [|c s']; cbn [pattern_match].
  - split; [discriminate|]. intros (s' & E & _). discriminate.
  - rewrite andb_true_iff, Z.eqb_eq. split.
    + intros [-> Hp]. now exists s'.
    + intros (s'' & [= -> ->] & Hp). now split.
Qed.

(** The pattern accepts the texts of the shape [YYYY-MM-DD], and no other. *)
Lemma birth_date_pattern_lexical (is_digit : char -> bool) (s : pystr) :
  pattern_match is_digit birth_date_pattern s = true <->
  lexical_date is_digit s.
Proof.
  unfold lexical_date, birth_date_pattern. cbn [repeat app].
  rewrite pattern_match_digit. split.
  - intros (y1 & s1 & -> & Y1 & H).
    apply pattern_match_digit in H as (y2 & s2 & -> & Y2 & H).
    apply pattern_match_digit in H as (y3 & s3 & -> & Y3 & H).
    apply pattern_match_digit in H as (y4 & s4 & -> & Y4 & H).
    apply pattern_match_lit in H as (s5 & -> & H).
    apply pattern_match_digit in H as (m1 & s6 & -> & M1 & H).
    apply pattern_match_digit in H as (m2 & s7 & -> & M2 & H).
    apply pattern_match_lit in H as (s8 & -> & H).
    apply pattern_match_digit in H as (d1 & s9 & -> & D1 & H).
    apply pattern_match_digit in H as (d2 & s10 & -> & D2 & H).
    apply pattern_match_nil in H as ->.
    exists y1, y2, y3, y4, m1, m2, d1, d2. split; [reflexivity|].
    repeat constructor; assumption.
  - intros (y1 & y2 & y3 & y4 & m1 & m2 & d1 & d2 & -> & HF).
    repeat match goal with
    | H : List.Forall _ (_ :: _) |- _ =>
      apply List.Forall_cons_iff in H; destruct H as [? H]
    end.
    eexists _, _. split; [reflexivity|]. split; [assumption|].
    cbn [pattern_match]. rewrite !Z.eqb_refl.
    repeat match goal with
    | H : is_digit _ = true |- _ => rewrite H; clear H
    end.
    reflexivity.
Qed.

Lemma pattern_field_ok (is_digit : char -> bool) (v : option pystr)
    (s : pystr) :
  pattern_field is_digit birth_date_pattern v = inr s <->
  v = Some s /\ lexical_date is_digit s.
Proof.
  unfold pattern_field. destruct v as [t|]; [|split; [discriminate|]].
  - destruct (pattern_match is_digit birth_date_pattern t) eqn:E.
    + apply birth_date_pattern_lexical in E.
      split; [intros [= <-]; auto|]. now intros [[= <-] _].
    + split; [discriminate|]. intros [[= <-] HL].
      apply birth_date_pattern_lexical in HL. congruence.
  - now intros [? _].
Qed.

Lemma failed_iff {A : Type} (r : reason + A) (P : Prop) :
  ((exists a, r = inr a) <-> P) -> (failed r <-> ~ P).
Proof.
  intros H. unfold failed. destruct r as [e|a].
  - split; [|eauto]. intros _ HP. apply H in HP as [a Ha]. discriminate.
  - split; [intros [e He]; discriminate|].
    intros HP. exfalso. apply HP, H. eauto.
Qed.

Section Validation.

Variable is_digit : char -> bool.

Lemma literal_field_failed (v : option pystr) :
  failed (literal_field id_types v) <-> ~ in_enumeration v.
Proof.
  apply failed_iff. unfold in_enumeration.
  split; intros [s H]; exists s; now apply literal_field_ok.
Qed.

Lemma str_field_failed (v : option pystr) :
  failed (str_field 2 100 v) <-> ~ length_in_range v.
Proof.
  apply failed_iff. unfold length_in_range.
  split; intros [s H]; exists s; now apply str_field_ok.
Qed.

Lemma pattern_field_failed (v : option pystr) :
  failed (pattern_field is_digit birth_date_pattern v) <->
  ~ has_date_shape is_digit v.
Proof.
  apply failed_iff. unfold has_date_shape.
  split; intros [s H]; exists s; now apply pattern_field_ok.
Qed.

Lemma int_field_failed (v : option Z) :
  failed (int_field v) <-> ~ is_integer v.
Proof.
  apply failed_iff. unfold is_integer.
  split; intros [s H]; exists s; now apply int_field_ok.
Qed.

(** Validation fails when the check of some field fails, and then reports
    at least one error; when it succeeds the model holds the values the
    checks returned. *)
Lemma validate_cases (raw : RawBirthData) :
  let r1 := literal_field id_types (raw_father_id_type raw) in
  let r2 := int_field (raw_father_id raw) in
  let r3 := literal_field id_types (raw_mother_id_type raw) in
  let r4 := int_field (raw_mother_id raw) in
  let r5 := str_field 2 100 (raw_mother_name raw) in
  let r6 := str_field 2 100 (raw_hospital_name raw) in
  let r7 := pattern_field is_digit birth_date_pattern (raw_birth_date raw) in
  (exists e, validate is_digit raw = inl e /\ e <> [] /\
     (failed r1 \/ failed r3 \/ failed r5 \/ failed r6 \/ failed r7
      \/ failed r2 \/ failed r4)) \/
  (exists data, validate is_digit raw = inr data /\
     r1 = inr (BirthData.father_id_type data) /\
     r2 = inr (BirthData.father_id data) /\
     r3 = inr (BirthData.mother_id_type data) /\
     r4 = inr (BirthData.mother_id data) /\
     r5 = inr (BirthData.mother_name data) /\
     r6 = inr (BirthData.hospital_name data) /\
     r7 = inr (BirthData.birth_date data)).
Proof.
  intros r1 r2 r3 r4 r5 r6 r7. unfold validate.
  fold r1 r2 r3 r4 r5 r6 r7.
  destruct r1 as [e1|a1];
    [left; eexists; split; [reflexivity|];
     split; [discriminate | unfold failed; eauto 8]|].
  destruct r2 as [e2|a2];
    [left; eexists; split; [reflexivity|];
     split; [discriminate | unfold failed; eauto 8]|].
  destruct r3 as [e3|a3];
    [left; eexists; split; [reflexivity|];
     split; [discriminate | unfold failed; eauto 8]|].
  destruct r4 as [e4|a4];
    [left; eexists; split; [reflexivity|];
     split; [discriminate | unfold failed; eauto 8]|].
  destruct r5 as [e5|a5];
    [left; eexists; split; [reflexivity|];
     split; [discriminate | unfold failed; eauto 8]|].
  destruct r6 as [e6|a6];
    [left; eexists; split; [reflexivity|];
     split; [discriminate | unfold failed; eauto 9]|].
  destruct r7 as [e7|a7];
    [left; eexists; split; [reflexivity|];
     split; [discriminate | unfold failed; eauto 9]|].
  right. eexists. split; [reflexivity|]. cbn. repeat split.
Qed.

End Validation.

Section ValidationClaims.

Variable is_digit : char -> bool.

(** C5. Validation fails exactly when an id type is not one of the two
    values of the enumeration, the name of the mother or of the hospital has
    no length from 2 to 100, the birth date has not the shape [YYYY-MM-DD],
    or an id is absent or not an integer; a failure carries at least one
    reason. Validation is a function of the body alone: it reads and writes
    no state, and what it accepts it hands on as it was sent; on what it
    accepts, the two tests of the id types at the head of [save_data] pass. *)
Theorem validation_fails_exactly_on_invalid_input (raw : RawBirthData) :
  ((exists e, validate is_digit raw = inl e) <-> invalid is_digit raw) /\
  (forall e, validate is_digit raw = inl e -> e <> []) /\
  (forall data, validate is_digit raw = inr data ->
     as_sent raw data /\
     pystr_in (BirthData.father_id_type data) id_types = true /\
     pystr_in (BirthData.mother_id_type data) id_types = true).
Proof.
  assert (Hinv : invalid is_digit raw <->
    failed (literal_field id_types (raw_father_id_type raw)) \/
    failed (literal_field id_types (raw_mother_id_type raw)) \/
    failed (str_field 2 100 (raw_mother_name raw)) \/
    failed (str_field 2 100 (raw_hospital_name raw)) \/
    failed (pattern_field is_digit birth_date_pattern (raw_birth_date raw)) \/
    failed (int_field (raw_father_id raw)) \/
    failed (int_field (raw_mother_id raw))).
  { unfold invalid.
    rewrite !literal_field_failed, !str_field_failed,
      (pattern_field_failed is_digit), !int_field_failed. reflexivity. }
  destruct (validate_cases is_digit raw)
    as [(e & He & Hne & Hfail)|(data & Hd & H1 & H2 & H3 & H4 & H5 & H6 & H7)].
  - split; [|split].
    + split; [intros _; now apply Hinv | intros _; eauto].
    + intros e' He'. congruence.
    + intros data Hd. congruence.
  - split; [|split].
    + split; [intros [e He]; congruence|].
      intros Hi. apply Hinv in Hi. exfalso.
      unfold failed in Hi.
      rewrite H1, H2, H3, H4, H5, H6, H7 in Hi.
      repeat destruct Hi as [[e Hi]|Hi]; try discriminate.
      destruct Hi as [e Hi]. discriminate.
    + intros e He. congruence.
    + intros data' Hd'. assert (data' = data) by congruence. subst data'.
      apply literal_field_ok in H1 as [H1 I1], H3 as [H3 I3].
      apply int_field_ok in H2, H4.
      apply str_field_ok in H5 as [H5 _], H6 as [H6 _].
      apply pattern_field_ok in H7 as [H7 _].
      split; [unfold as_sent; repeat split; assumption|].
      split; now apply pystr_in_In.
Qed.

(** C6. The birth date is checked against the pattern and nothing else: a
    body that is accepted is accepted with any other birth date of the shape
    [YYYY-MM-DD] in its place, whether that is a day of the calendar or not.
    ["2024-13-40"] has the shape, is no day of the calendar, and is
    accepted. *)
Theorem only_the_shape_of_the_date_is_checked
    (raw : RawBirthData) (data : BirthData.t) :
  (forall c, ascii_digit c = true -> is_digit c = true) ->
  validate is_digit raw = inr data ->
  (forall s, lexical_date is_digit s -> ~ calendar_valid s ->
     validate is_digit (with_birth_date raw s)
       = inr (set_birth_date data s)) /\
  lexical_date is_digit (py "2024-13-40") /\
  ~ calendar_valid (py "2024-13-40") /\
  validate is_digit (with_birth_date raw (py "2024-13-40"))
    = inr (set_birth_date data (py "2024-13-40")).
Proof.
  intros Hascii Hok.
  assert (Hany : forall s, lexical_date is_digit s ->
            validate is_digit (with_birth_date raw s)
            = inr (set_birth_date data s)).
  { intros s Hs.
    destruct (validate_cases is_digit raw)
      as [(e & He & _)|(data' & Hd & H1 & H2 & H3 & H4 & H5 & H6 & H7)];
      [congruence|].
    assert (data' = data) by congruence. subst data'.
    unfold validate, with_birth_date.
    cbn [raw_father_id_type raw_father_id raw_mother_id_type raw_mother_id
         raw_mother_name raw_hospital_name raw_birth_date].
    rewrite H1, H2, H3, H4, H5, H6.
    apply birth_date_pattern_lexical in Hs.
    unfold pattern_field. rewrite Hs. reflexivity. }
  assert (Hshape : lexical_date is_digit (py "2024-13-40")).
  { unfold lexical_date. do 8 eexists. split; [reflexivity|].
    repeat constructor; apply Hascii; reflexivity. }
  split; [intros s Hs _; now apply Hany|].
  split; [exact Hshape|]. split; [|now apply Hany].
  intros (y1 & y2 & y3 & y4 & m1 & m2 & d1 & d2 & E & _ & _ & Hm & _).
  vm_compute in E. injection E as <- <- <- <- <- <- <- <-.
  vm_compute in Hm. destruct Hm as [_ Hm]. apply Hm. reflexivity.
Qed.

End ValidationClaims.

Lemma only_the_shape_of_the_date_is_checked_witness :
  validate ascii_digit raw_sample = inr sample_data /\
  validate ascii_digit (with_birth_date raw_sample (py "2024-13-40"))
    = inr (set_birth_date sample_data (py "2024-13-40")).
Proof.
  assert (H : validate ascii_digit raw_sample = inr sample_data)
    by (vm_compute; reflexivity).
  split; [exact H|].
  exact (proj2 (proj2 (proj2
           (only_the_shape_of_the_date_is_checked
              ascii_digit raw_sample sample_data (fun c Hc => Hc) H)))).
Defined.

Lemma duplicate_submission_is_answered_500_witness :
  select_births sample_db (BirthData.father_id sample_data')
                (BirthData.mother_id sample_data') = inr [sample_row] /\
  save_data library_str noon_1_march sample_data' sample_db
  = (inl (HTTPException 500
            (library_str (HTTPException 400
               (py "تم إدخال هذه البيانات بالفعل في مستشفى "
                ++ Row.hospital_name sample_row)))), sample_db).
Proof.
  assert (Hs : select_births sample_db (BirthData.father_id sample_data')
                 (BirthData.mother_id sample_data') = inr [sample_row])
    by (vm_compute; reflexivity).
  assert (Tf : pystr_in (BirthData.father_id_type sample_data') id_types
               = true) by (vm_compute; reflexivity).
  assert (Tm : pystr_in (BirthData.mother_id_type sample_data') id_types
               = true) by (vm_compute; reflexivity).
  split; [exact Hs|].
  exact (proj1 (proj2 (duplicate_submission_is_answered_500 library_str
                         noon_1_march sample_data' sample_db sample_row []
                         Tf Tm Hs))).
Defined.

Lemma empty_search_is_answered_500_witness :
  sqlite_int 1001 && sqlite_int 2002 = true /\
  search_data library_str 1001 2002 init_db
  = (inl (HTTPException 500
            (library_str (HTTPException 404
                            (py "لم يتم العثور على بيانات.")))), init_db).
Proof.
  assert (H : sqlite_int 1001 && sqlite_int 2002 = true)
    by (vm_compute; reflexivity).
  split; [exact H|].
  exact (proj2 (proj2 (empty_search_is_answered_500 library_str
                         1001 2002 init_db H)) eq_refl).
Defined.

Lemma duplicate_detection_ignores_id_types_witness :
  save_data library_str (at_time 2024 1 15 8 30 0 250000) sample_data init_db
    = (inr (Message (py "تم حفظ البيانات بنجاح")), sample_db) /\
  save_data_try noon_1_march sample_data' sample_db
    = (inl (already_saved (BirthData.hospital_name sample_data)), sample_db).
Proof.
  assert (H : save_data library_str (at_time 2024 1 15 8 30 0 250000)
                sample_data init_db
              = (inr (Message (py "تم حفظ البيانات بنجاح")), sample_db))
    by (vm_compute; reflexivity).
  assert (Hf : BirthData.father_id sample_data'
               = BirthData.father_id sample_data)
    by (vm_compute; reflexivity).
  assert (Hm : BirthData.mother_id sample_data'
               = BirthData.mother_id sample_data)
    by (vm_compute; reflexivity).
  assert (Tf : pystr_in (BirthData.father_id_type sample_data') id_types
               = true) by (vm_compute; reflexivity).
  assert (Tm : pystr_in (BirthData.mother_id_type sample_data') id_types
               = true) by (vm_compute; reflexivity).
  split; [exact H|].
  exact (proj1 (duplicate_detection_ignores_id_types library_str
                  (at_time 2024 1 15 8 30 0 250000) noon_1_march
                  sample_data sample_data' init_db sample_db _
                  H Hf Hm Tf Tm)).
Defined.

(** ** Invariants of the table under requests handled in turn *)

Section TableInvariants.

Variable exc_str : exn -> pystr.

(** What a request does to the table: nothing, what [save_data] does, or
    what [delete_old_entries] does. *)
Lemma serve_db (c : clock) (req : request) (a : App) :
  db (snd (serve exc_str c req a)) = db a \/
  (exists data,
     db (snd (serve exc_str c req a))
     = snd (save_data exc_str (datetime_now c) data (db a))) \/
  db (snd (serve exc_str c req a))
  = snd (delete_old_entries exc_str (datetime_now c) (db a)).
Proof.
  destruct req as [|data| |f m]; cbn [serve]; unfold rate_limit;
    cbn [fst snd].
  - destruct (check_rate 100 60 "read_root" (time_time c) (root_limiter a))
      as [[e|u] l]; left; [reflexivity|].
    now destruct (rendering c).
  - destruct (check_rate 10 60 "save_data" (time_time c) (save_limiter a))
      as [[e|u] l]; [left; reflexivity|].
    right; left. exists data.
    now destruct (save_data exc_str (datetime_now c) data (db a)).
  - destruct (check_rate 5 3600 "delete_old_entries" (time_time c)
                (delete_limiter a)) as [[e|u] l]; [left; reflexivity|].
    right; right.
    now destruct (delete_old_entries exc_str (datetime_now c) (db a)).
  - destruct (check_rate 20 60 "search_data" (time_time c)
                (search_limiter a)) as [[e|u] l]; [left; reflexivity|].
    left. rewrite <- (search_data_step exc_str f m (db a)) at 2.
    now destruct (search_data exc_str f m (db a)).
Qed.

Lemma save_data_db (now : datetime) (data : BirthData.t) (d : Database) :
  snd (save_data exc_str now data d) = d \/
  exists b d',
    save_data exc_str now data d = (inr b, d') /\
    snd (save_data exc_str now data d) = d'.
Proof.
  destruct (save_data exc_str now data d) as [[e|b] d'] eqn:E.
  - left. cbn. now apply (save_data_failure exc_str now data d d' e).
  - right. now exists b, d'.
Qed.

Lemma delete_old_entries_db (now : datetime) (d : Database) :
  exists keep, births (snd (delete_old_entries exc_str now d))
               = List.filter keep (births d).
Proof.
  unfold delete_old_entries. rewrite guarded_snd.
  unfold delete_old_entries_try.
  destruct (minus_days now 30) as [cutoff|].
  - now eexists.
  - exists (fun _ => true). cbn [snd]. symmetry. now apply filter_all.
Qed.

(** A submission keeps the pairs of the table distinct: it inserts only
    after its lookup has found no row of its pair. *)
Lemma save_data_pairs_unique (now : datetime) (data : BirthData.t)
    (d : Database) :
  pairs_unique d -> pairs_unique (snd (save_data exc_str now data d)).
Proof.
  intros Hu. destruct (save_data_db now data d) as [->|(b & d' & Hok & ->)];
    [exact Hu|].
  destruct (save_data_success exc_str now data d d' b Hok)
    as (_ & _ & Hsel & Hins).
  apply select_births_inr in Hsel as [_ Hnone].
  unfold insert_birth in Hins.
  destruct (last_rowid d =? max_rowid); [discriminate|].
  injection Hins as <-. unfold pairs_unique. cbn [births].
  rewrite map_app. cbn [map Row.father_id Row.mother_id].
  apply List.NoDup_app.
  - exact Hu.
  - repeat constructor. intros [].
  - intros x Hx [<-|[]]. apply in_map_iff in Hx as (r & Hr & Hin).
    injection Hr as Hf Hm.
    assert (Hmatch : In r (List.filter
                             (matches (BirthData.father_id data)
                                      (BirthData.mother_id data)) (births d))).
    { apply filter_In. split; [exact Hin|]. now apply matches_eq. }
    rewrite <- Hnone in Hmatch. destruct Hmatch.
Qed.

Lemma delete_old_entries_pairs_unique (now : datetime) (d : Database) :
  pairs_unique d -> pairs_unique (snd (delete_old_entries exc_str now d)).
Proof.
  intros Hu. destruct (delete_old_entries_db now d) as [keep E].
  unfold pairs_unique. rewrite E. now apply NoDup_map_filter.
Qed.

(** I2, for requests handled in turn: at no point do two rows of the table
    have the same pair of ids. *)
Theorem pairs_stay_unique (reqs : list (clock * request)) :
  pairs_unique (db (serve_all exc_str reqs new_app)).
Proof.
  assert (H : forall a, pairs_unique (db a) ->
                        pairs_unique (db (serve_all exc_str reqs a))).
  { induction reqs as [|[c req] reqs IH]; intros a Hu; cbn [serve_all];
      [exact Hu|].
    apply IH.
    destruct (serve_db c req a) as [->|[[data ->]| ->]].
    - exact Hu.
    - now apply save_data_pairs_unique.
    - now apply delete_old_entries_pairs_unique. }
  apply H. constructor.
Qed.

Lemma serve_all_app (l1 l2 : list (clock * request)) (a : App) :
  serve_all exc_str (l1 ++ l2) a
  = serve_all exc_str l2 (serve_all exc_str l1 a).
Proof.
  revert a. induction l1 as [|[c req] l1 IH]; intros a; cbn [serve_all app];
    [reflexivity | apply IH].
Qed.

Lemma serve_db_request (c : clock) (req : request) (a : App) :
  db (snd (serve exc_str c req a)) = db a \/
  (exists data,
     req = SaveData data /\
     db (snd (serve exc_str c req a))
     = snd (save_data exc_str (datetime_now c) data (db a))) \/
  db (snd (serve exc_str c req a))
  = snd (delete_old_entries exc_str (datetime_now c) (db a)).
Proof.
  destruct req as [|data| |f m]; cbn [serve]; unfold rate_limit;
    cbn [fst snd].
  - destruct (check_rate 100 60 "read_root" (time_time c) (root_limiter a))
      as [[e|u] l]; left; [reflexivity|].
    now destruct (rendering c).
  - destruct (check_rate 10 60 "save_data" (time_time c) (save_limiter a))
      as [[e|u] l]; [left; reflexivity|].
    right; left. exists data. split; [reflexivity|].
    now destruct (save_data exc_str (datetime_now c) data (db a)).
  - destruct (check_rate 5 3600 "delete_old_entries" (time_time c)
                (delete_limiter a)) as [[e|u] l]; [left; reflexivity|].
    right; right.
    now destruct (delete_old_entries exc_str (datetime_now c) (db a)).
  - destruct (check_rate 20 60 "search_data" (time_time c)
                (search_limiter a)) as [[e|u] l]; [left; reflexivity|].
    left. rewrite <- (search_data_step exc_str f m (db a)) at 2.
    now destruct (search_data exc_str f m (db a)).
Qed.

(** Over every history of requests served by a freshly started
    application, every row of the table was written by a submission of the
    history: that request, served after the requests before it, added the
    row, and the row holds the fields of its body and, as [created_at], the
    [isoformat()] text of the [datetime.now()] that this request read. With
    valid clock readings every row therefore carries the timestamp of a
    moment. *)
Theorem rows_are_stamped (reqs : list (clock * request)) :
  List.Forall (written_by exc_str reqs)
              (births (db (serve_all exc_str reqs new_app))) /\
  (List.Forall (fun cr => valid_datetime (datetime_now (fst cr)) = true) reqs ->
   List.Forall stamped (births (db (serve_all exc_str reqs new_app)))).
Proof.
  assert (W : List.Forall (written_by exc_str reqs)
                (births (db (serve_all exc_str reqs new_app)))).
  { assert (H : forall post pre,
      reqs = pre ++ post ->
      List.Forall (written_by exc_str reqs)
                  (births (db (serve_all exc_str pre new_app))) ->
      List.Forall (written_by exc_str reqs)
                  (births (db (serve_all exc_str post
                                 (serve_all exc_str pre new_app))))).
    { induction post as [|[c req] post IH]; intros pre E Hs;
        cbn [serve_all]; [exact Hs|].
      specialize (IH (pre ++ [(c, req)])).
      rewrite serve_all_app in IH. cbn [serve_all] in IH.
      apply IH; [rewrite <- List.app_assoc; exact E|].
      set (a := serve_all exc_str pre new_app) in *.
      destruct (serve_db_request c req a) as [->|[(data & -> & Hd)|Hd]].
      - exact Hs.
      - destruct (save_data_db (datetime_now c) data (db a))
          as [Hsame|(b & d' & Hok & Hsnd)].
        + rewrite Hd, Hsame. exact Hs.
        + destruct (save_data_success exc_str _ _ _ _ _ Hok)
            as (_ & _ & _ & Hins).
          unfold insert_birth in Hins.
          destruct (last_rowid (db a) =? max_rowid); [discriminate|].
          injection Hins as Hd'.
          assert (Hb : births (db (snd (serve exc_str c (SaveData data) a)))
                       = births (db a)
                         ++ [row_of (last_rowid (db a) + 1)
                                    (datetime_now c) data]).
          { rewrite Hd, Hsnd, <- Hd'. reflexivity. }
          rewrite Hb. apply List.Forall_app. split; [exact Hs|].
          apply List.Forall_cons; [|apply List.Forall_nil].
          exists pre, c, data, post. split; [exact E|].
          cbv zeta. fold a. split; [exact Hb | reflexivity].
      - rewrite Hd.
        destruct (delete_old_entries_db (datetime_now c) (db a))
          as [keep ->].
        rewrite List.Forall_forall in *. intros r Hr.
        apply filter_In in Hr as [Hr _]. now apply Hs. }
    apply (H reqs []); [reflexivity | apply List.Forall_nil]. }
  split; [exact W|].
  intros Hv. rewrite List.Forall_forall in *. intros r Hr.
  destruct (W r Hr) as (pre & c & data & post & E & _ & Er).
  exists (datetime_now c). split.
  - apply (Hv (c, SaveData data)). rewrite E. apply in_or_app.
    right. left. reflexivity.
  - rewrite Er. reflexivity.
Qed.

End TableInvariants.

Lemma rows_are_stamped_witness :
  List.Forall
    (written_by library_str
       [({| time_time := 0; datetime_now := noon_1_march;
            rendering := None |}, SaveData sample_data)])
    (births (db (serve_all library_str
                   [({| time_time := 0; datetime_now := noon_1_march;
                        rendering := None |},
                     SaveData sample_data)] new_app))) /\
  List.map Row.created_at
    (births (db (serve_all library_str
                   [({| time_time := 0; datetime_now := noon_1_march;
                        rendering := None |},
                     SaveData sample_data)] new_app)))
  = [py "2024-03-01T12:00:00"].
Proof.
  split; [|vm_compute; reflexivity].
  exact (proj1 (rows_are_stamped library_str _)).
Defined.

(** The comparison [created_at < ?] of the purge is a comparison of moments:
    on the timestamps of two moments the order of the texts is the order of
    the moments, and equal texts are of one moment. *)
Theorem iso_text_order_is_chronological (a b : datetime) :
  valid_datetime a = true -> valid_datetime b = true ->
  (text_ltb (isoformat a) (isoformat b) = true <-> precedes a b) /\
  (isoformat a = isoformat b -> fields a = fields b).
Proof.
  intros Va Vb. split; [now apply text_ltb_isoformat|].
  intros E. apply (isoformat_inj a b Va Vb) in E.
  unfold datetime_compare in E. unfold fields in *.
  cbn [fields_compare] in E.
  repeat match type of E with
  | match ?x ?= ?y with _ => _ end = Eq =>
    destruct (Z.compare_spec x y) as [->| |]; try discriminate E
  end.
  reflexivity.
Qed.

Lemma iso_text_order_is_chronological_witness :
  text_ltb (isoformat (at_time 2024 1 15 8 30 0 250000))
           (isoformat noon_1_march) = true <->
  precedes (at_time 2024 1 15 8 30 0 250000) noon_1_march.
Proof.
  exact (proj1 (iso_text_order_is_chronological
                  (at_time 2024 1 15 8 30 0 250000) noon_1_march
                  eq_refl eq_refl)).
Defined.

(** ** Further properties of the rate limiter *)


Lemma open_window_other (name other : string) (t : float) (l : limiter) :
  other <> name ->
  last_reset (open_window name t l) !! other = last_reset l !! other /\
  call_count (open_window name t l) !! other = call_count l !! other.
Proof.
  intros Hne. split; cbn; now apply lookup_insert_ne.
Qed.

(** On agreeing dictionaries a call is counted in a window, the one it
    found or the one it opens, and is let through when the counter of that
    window is below the limit. *)
Lemma check_rate_cases (calls period : Z) (name : string) (now : float)
    (l : limiter) :
  limiter_ok calls name l ->
  exists base t c,
    (base = l \/ (base = open_window name now l /\ t = now)) /\
    window base name t c /\ 0 <= c <= Z.max 0 calls /\
    check_rate calls period name now l =
    if calls <=? c then (inl too_many_requests, base)
    else (inr tt, count_call name c base).
Proof.
  intros [[Hr Hc]|(t & c & W & Hb)].
  - exists (open_window name now l), now, 0.
    pose proof (open_window_window name now l) as W.
    rewrite (check_rate_first calls period name now l Hr).
    rewrite (count_or_reject_window calls name now 0 _ W).
    repeat split; (auto || apply W || lia).
  - destruct (within_dec period t now) as [Hin|Hout].
    + exists l, t, c.
      rewrite (check_rate_within calls period name now t l (proj1 W) Hin).
      rewrite (count_or_reject_window calls name t c l W).
      repeat split; (auto || apply W || lia).
    + exists (open_window name now l), now, 0.
      pose proof (open_window_window name now l) as W'.
      rewrite (check_rate_elapsed calls period name now t l (proj1 W) Hout).
      rewrite (count_or_reject_window calls name now 0 _ W').
      repeat split; (auto || apply W' || lia).
Qed.

Lemma check_rate_ok (calls period : Z) (name : string) (now : float)
    (l : limiter) :
  limiter_ok calls name l ->
  (fst (check_rate calls period name now l) = inr tt \/
   fst (check_rate calls period name now l) = inl too_many_requests) /\
  limiter_ok calls name (snd (check_rate calls period name now l)) /\
  (exists t c, window (snd (check_rate calls period name now l)) name t c) /\
  (forall other, other <> name ->
     last_reset (snd (check_rate calls period name now l)) !! other
       = last_reset l !! other /\
     call_count (snd (check_rate calls period name now l)) !! other
       = call_count l !! other).
Proof.
  intros Hok.
  destruct (check_rate_cases calls period name now l Hok)
    as (base & t & c & Hbase & W & Hb & ->).
  assert (Hother : forall other, other <> name ->
            last_reset base !! other = last_reset l !! other /\
            call_count base !! other = call_count l !! other).
  { intros other Hne. destruct Hbase as [->|[-> _]]; [now split|].
    now apply open_window_other. }
  destruct (Z.leb_spec calls c) as [Hfull|Hroom]; cbn [fst snd].
  - split; [now right|]. split; [right; now exists t, c|].
    split; [now exists t, c | exact Hother].
  - split; [now left|].
    pose proof (count_call_window name t c base W) as W'.
    split; [right; exists t, (c + 1); split; [exact W' | lia]|].
    split; [now exists t, (c + 1)|].
    intros other Hne. destruct (Hother other Hne) as [H1 H2].
    split; [exact H1|]. cbn. now rewrite lookup_insert_ne.
Qed.

(** The limiter never fails on its own dictionaries. On dictionaries that
    agree on the name, every call is either let through or rejected with the
    429 error, never a [KeyError]; the dictionaries agree again after the
    calls, with the counter from 0 to the limit; and the entries of every
    other name are left as they were. *)
Theorem limiter_stays_well_formed (calls period : Z) (name : string)
    (ts : list float) (l : limiter) :
  limiter_ok calls name l ->
  List.Forall (fun r => r = inr tt \/ r = inl too_many_requests)
              (fst (calls_at calls period name ts l)) /\
  length (fst (calls_at calls period name ts l)) = length ts /\
  limiter_ok calls name (snd (calls_at calls period name ts l)) /\
  (forall other, other <> name ->
     last_reset (snd (calls_at calls period name ts l)) !! other
       = last_reset l !! other /\
     call_count (snd (calls_at calls period name ts l)) !! other
       = call_count l !! other).
Proof.
  revert l. induction ts as [|t ts IH]; intros l Hok; cbn [calls_at].
  - cbn [fst snd length]. split; [constructor|]. split; [reflexivity|].
    split; [exact Hok|]. intros other _. now split.
  - destruct (check_rate_ok calls period name t l Hok)
      as (Hr & Hok1 & _ & Hother1).
    destruct (check_rate calls period name t l) as [r l1].
    cbn [fst snd] in *.
    destruct (IH l1 Hok1) as (Hrs & Hlen & Hok2 & Hother2).
    destruct (calls_at calls period name ts l1) as [rs l2].
    cbn [fst snd] in *.
    split; [now constructor|]. split; [cbn; lia|]. split; [exact Hok2|].
    intros other Hne. destruct (Hother1 other Hne) as [A1 A2].
    destruct (Hother2 other Hne) as [B1 B2]. split; congruence.
Qed.

Lemma limiter_stays_well_formed_witness :
  limiter_ok 10 "save_data" new_limiter /\
  List.Forall (fun r => r = inr tt \/ r = inl too_many_requests)
              (fst (calls_at 10 60 "save_data" [0; 1; 2]%float new_limiter)).
Proof.
  assert (H : limiter_ok 10 "save_data" new_limiter)
    by (left; split; reflexivity).
  split; [exact H|].
  exact (proj1 (limiter_stays_well_formed 10 60 "save_data" [0; 1; 2]%float
                  new_limiter H)).
Defined.







(** A difference that is not negative has reached every period that is not
    positive. *)
Lemma float_ge_int_le (x : float) (p q : Z) :
  float_ge_int x q = true -> p <= q -> float_ge_int x p = true.
Proof.
  unfold float_ge_int.
  destruct (Prim2SF x) as [s|s| |s m e]; intros H Hp; try assumption.
  - apply Z.leb_le in H. apply Z.leb_le. lia.
  - cbv zeta in *. destruct (0 <=? e).
    + apply Z.leb_le in H. apply Z.leb_le. lia.
    + apply Z.leb_le in H. apply Z.leb_le.
      assert (0 <= 2 ^ (- e)) by apply Z.pow_nonneg, Z.le_0_2.
      nia.
Qed.

Lemma not_before_elapsed (period : Z) (t now : float) :
  period <= 0 -> not_before t now = true -> elapsed period t now = true.
Proof.
  intros Hp H. unfold elapsed, not_before in *.
  now apply (float_ge_int_le _ period 0).
Qed.

(** The two degenerate settings. With a limit of zero or less no call ever
    passes. With a period of zero or less and a limit of one or more, every
    call passes as long as the clock does not step back: each call finds the
    period elapsed and opens a window of its own. *)
Theorem degenerate_limits (calls period : Z) (name : string) :
  (calls <= 0 -> forall ts l, limiter_ok calls name l ->
     fst (calls_at calls period name ts l)
     = repeat (inl too_many_requests) (length ts)) /\
  (period <= 0 -> 0 < calls -> forall ts t0 l,
     (last_reset l !! name = None \/
      exists t c, window l name t c /\ not_before t t0 = true) ->
     non_decreasing t0 ts ->
     fst (calls_at calls period name (t0 :: ts) l)
     = repeat (inr tt) (S (length ts))).
Proof.
  split.
  - intros Hcalls ts. induction ts as [|x ts IH]; intros l Hok;
      [reflexivity|].
    cbn [calls_at].
    pose proof (check_rate_ok calls period name x l Hok) as (_ & Hok1 & _).
    destruct (check_rate_cases calls period name x l Hok)
      as (base & t & c & _ & _ & Hb & E).
    rewrite E in *. destruct (Z.leb_spec calls c); [|lia].
    cbn [fst snd] in *. specialize (IH base Hok1).
    destruct (calls_at calls period name ts base) as [rs l2].
    cbn [fst] in *. cbn [length repeat]. now rewrite IH.
  - intros Hperiod Hcalls ts.
    assert (Hopens : forall t0 l,
              (last_reset l !! name = None \/
               exists t c, window l name t c /\ not_before t t0 = true) ->
              opens_window period name t0 l).
    { intros t0 l [Hn|(t & c & W & Ht)]; [now left|].
      right. exists t. split; [apply W|].
      now apply (not_before_elapsed period t t0). }
    induction ts as [|x ts IH]; intros t0 l Hl Hnd.
    + cbn [calls_at].
      rewrite (check_rate_opens calls period name t0 l (Hopens t0 l Hl)).
      rewrite (count_or_reject_window calls name t0 0 _
                 (open_window_window name t0 l)).
      destruct (Z.leb_spec calls 0); [lia | reflexivity].
    + destruct Hnd as [Hx Hnd].
      change (calls_at calls period name (t0 :: x :: ts) l)
        with (let (r, l1) := check_rate calls period name t0 l in
              let (rs, l2) := calls_at calls period name (x :: ts) l1 in
              (r :: rs, l2)).
      rewrite (check_rate_opens calls period name t0 l (Hopens t0 l Hl)).
      pose proof (open_window_window name t0 l) as W.
      rewrite (count_or_reject_window calls name t0 0 _ W).
      destruct (Z.leb_spec calls 0); [lia|].
      specialize (IH x (count_call name 0 (open_window name t0 l))).
      destruct (calls_at calls period name (x :: ts)
                  (count_call name 0 (open_window name t0 l))) as [rs l2].
      cbn [fst] in *. rewrite IH; [reflexivity | | exact Hnd].
      right. exists t0, (0 + 1). split; [|exact Hx].
      now apply count_call_window.
Qed.

(** ** Further properties of the handlers *)

Section HandlerProperties.

Variable exc_str : exn -> pystr.

Lemma guarded_error {S A : Type} (r : (exn + A) * S) (e : exn) (s : S) :
  guarded exc_str r = (inl e, s) ->
  exists e0, e = HTTPException 500 (exc_str e0) /\ r = (inl e0, s).
Proof.
  destruct r as [[e0|a] s0]; cbn [guarded]; [|discriminate].
  intros [= <- <-]. now exists e0.
Qed.

Lemma delete_old_entries_failure (now : datetime) (d d' : Database)
    (e : exn) :
  delete_old_entries exc_str now d = (inl e, d') -> d' = d.
Proof.
  unfold delete_old_entries. intros H.
  apply guarded_error in H as (e0 & _ & H).
  unfold delete_old_entries_try in H.
  destruct (minus_days now 30); [discriminate | congruence].
Qed.

Lemma check_rate_error (calls period : Z) (name : string) (now : float)
    (l l' : limiter) (e : exn) :
  check_rate calls period name now l = (inl e, l') ->
  e = too_many_requests \/ e = KeyError name.
Proof.
  unfold check_rate, current_window, renew, count_or_reject.
  destruct (last_reset (first_use name now l) !! name) as [t|];
    [|intros [= <- _]; now right].
  destruct (elapsed period t now).
  - destruct (call_count (open_window name now (first_use name now l))
                !! name) as [c|]; [|intros [= <- _]; now right].
    destruct (calls <=? c); [intros [= <- _]; now left | discriminate].
  - destruct (call_count (first_use name now l) !! name) as [c|];
      [|intros [= <- _]; now right].
    destruct (calls <=? c); [intros [= <- _]; now left | discriminate].
Qed.

(** What an endpoint answers when it does not succeed: the 429 error of
    its limiter, or a 500 error. No endpoint ever answers 400 or 404: every
    error raised inside a handler, the handler's own 400 and 404 included,
    leaves it as a 500. A request that does not succeed leaves the table as
    it was. *)
Theorem errors_are_429_or_500 (c : clock) (req : request) (a a' : App)
    (e : exn) :
  serve exc_str c req a = (inl e, a') ->
  (status_of e = 429 \/ status_of e = 500) /\ db a' = db a.
Proof.
  assert (Hlim : forall calls period name l l' e',
            check_rate calls period name (time_time c) l = (inl e', l') ->
            status_of e' = 429 \/ status_of e' = 500).
  { intros calls period name l l' e' H.
    apply check_rate_error in H as [->| ->]; [now left | now right]. }
  destruct req as [|data| |f m]; cbn [serve]; unfold rate_limit;
    cbn [fst snd].
  - destruct (check_rate 100 60 "read_root" _ _) as [[e1|u] l] eqn:E.
    + intros [= <- <-]. split; [eapply Hlim; exact E | reflexivity].
    + unfold read_root. destruct (rendering c) as [msg|]; [|discriminate].
      intros [= <- <-]. split; [now right | reflexivity].
  - destruct (check_rate 10 60 "save_data" _ _) as [[e1|u] l] eqn:E.
    + intros [= <- <-]. split; [eapply Hlim; exact E | reflexivity].
    + destruct (save_data exc_str (datetime_now c) data (db a))
        as [r d'] eqn:Es.
      intros [= -> <-]. cbn [db].
      pose proof (save_data_failure exc_str _ _ _ _ _ Es) as ->.
      unfold save_data in Es. apply guarded_error in Es as (e0 & -> & _).
      split; [now right | reflexivity].
  - destruct (check_rate 5 3600 "delete_old_entries" _ _)
      as [[e1|u] l] eqn:E.
    + intros [= <- <-]. split; [eapply Hlim; exact E | reflexivity].
    + destruct (delete_old_entries exc_str (datetime_now c) (db a))
        as [r d'] eqn:Es.
      intros [= -> <-]. cbn [db].
      pose proof (delete_old_entries_failure _ _ _ _ Es) as ->.
      unfold delete_old_entries in Es.
      apply guarded_error in Es as (e0 & -> & _).
      split; [now right | reflexivity].
  - destruct (check_rate 20 60 "search_data" _ _) as [[e1|u] l] eqn:E.
    + intros [= <- <-]. split; [eapply Hlim; exact E | reflexivity].
    + pose proof (search_data_step exc_str f m (db a)) as Hs.
      destruct (search_data exc_str f m (db a)) as [r d'] eqn:Es.
      cbn [snd] in Hs. subst d'.
      intros [= -> <-]. cbn [db].
      unfold search_data in Es. apply guarded_error in Es as (e0 & -> & _).
      split; [now right | reflexivity].
Qed.

End HandlerProperties.

Lemma errors_are_429_or_500_witness :
  exists e a',
    serve library_str sample_clock (SaveData sample_data') sample_app
      = (inl e, a') /\
    (status_of e = 429 \/ status_of e = 500) /\ db a' = db sample_app.
Proof.
  destruct (serve library_str sample_clock (SaveData sample_data') sample_app)
    as [[e|b] a'] eqn:E.
  - exists e, a'. split; [reflexivity|].
    exact (errors_are_429_or_500 library_str sample_clock
             (SaveData sample_data') sample_app a' e E).
  - vm_compute in E. discriminate E.
Defined.

Section SubmitProperties.

Variable exc_str : exn -> pystr.

Lemma insert_birth_inr (d d' : Database) (f m : Z)
    (name hospital date created : pystr) :
  insert_birth d f m name hospital date created = inr d' ->
  last_rowid d <> max_rowid /\
  d' = {| births := births d ++
            [ {| Row.id := last_rowid d + 1; Row.father_id := f;
                 Row.mother_id := m; Row.mother_name := name;
                 Row.hospital_name := hospital; Row.birth_date := date;
                 Row.created_at := created |} ];
          sqlite_sequence := last_rowid d + 1 |}.
Proof.
  unfold insert_birth. destruct (Z.eqb_spec (last_rowid d) max_rowid);
    [discriminate|].
  intros [= <-]. now split.
Qed.

(** When a submission succeeds. It succeeds exactly when its two id types
    are of the enumeration, its two ids fit a 64-bit integer, no row of the
    table has its pair of ids, and the rowids are not used up; it then
    appends one row, which holds the submitted values, the timestamp of the
    clock reading and the next rowid, and changes no other row. *)
Theorem save_data_succeeds_iff (now : datetime) (data : BirthData.t)
    (d : Database) :
  ((exists b d', save_data exc_str now data d = (inr b, d')) <->
   pystr_in (BirthData.father_id_type data) id_types = true /\
   pystr_in (BirthData.mother_id_type data) id_types = true /\
   sqlite_int (BirthData.father_id data)
     && sqlite_int (BirthData.mother_id data) = true /\
   (forall r, In r (births d) ->
      ~ (Row.father_id r = BirthData.father_id data /\
         Row.mother_id r = BirthData.mother_id data)) /\
   last_rowid d <> max_rowid) /\
  (forall b d', save_data exc_str now data d = (inr b, d') ->
     b = Message (py "تم حفظ البيانات بنجاح") /\
     births d' = births d ++ [row_of (last_rowid d + 1) now data] /\
     sqlite_sequence d' = last_rowid d + 1).
Proof.
  split.
  - split.
    + intros (b & d' & Hok).
      destruct (save_data_success exc_str now data d d' b Hok)
        as (Tf & Tm & Hsel & Hins).
      apply select_births_inr in Hsel as [Hint Hnone].
      apply insert_birth_inr in Hins as [Hfull _].
      repeat split; try assumption.
      intros r Hr Hpair.
      assert (Hin : In r (List.filter (matches (BirthData.father_id data)
                                         (BirthData.mother_id data))
                                      (births d))).
      { apply filter_In. split; [exact Hr | now apply matches_eq]. }
      rewrite <- Hnone in Hin. destruct Hin.
    + intros (Tf & Tm & Hint & Hnone & Hfull).
      unfold save_data, save_data_try, save_data_check, save_data_insert,
        select_births, insert_birth.
      rewrite Tf, Tm, Hint. cbn [negb].
      rewrite (filter_none (matches _ _) (births d)).
      * destruct (Z.eqb_spec (last_rowid d) max_rowid); [contradiction|].
        cbn [guarded]. eauto.
      * intros r Hr.
        destruct (matches _ _ r) eqn:E; [|reflexivity].
        apply matches_eq in E. now destruct (Hnone r Hr).
  - intros b d' Hok.
    assert (Hb : b = Message (py "تم حفظ البيانات بنجاح")).
    { revert Hok.
      unfold save_data, save_data_try, save_data_insert.
      destruct (save_data_check d data); [discriminate|].
      destruct (insert_birth d _ _ _ _ _ _); [discriminate|].
      cbn [guarded]. now intros [= <- _]. }
    destruct (save_data_success exc_str now data d d' b Hok)
      as (_ & _ & _ & Hins).
    apply insert_birth_inr in Hins as [_ ->].
    repeat split; assumption || reflexivity.
Qed.

(** Submit, then search. After a submission has succeeded, a search for
    its two ids answers with one row and no more: the row the submission
    wrote, with the submitted values in its columns. *)
Theorem search_finds_the_saved_row (now : datetime) (data : BirthData.t)
    (d d' : Database) (b : body) :
  save_data exc_str now data d = (inr b, d') ->
  search_data exc_str (BirthData.father_id data) (BirthData.mother_id data) d'
  = (inr (Data [row_of (last_rowid d + 1) now data]), d').
Proof.
  intros Hok.
  destruct (save_data_success exc_str now data d d' b Hok)
    as (_ & _ & Hsel & Hins).
  apply select_births_inr in Hsel as [Hint Hnone].
  apply insert_birth_inr in Hins as [_ ->].
  unfold search_data, search_data_try, select_births. rewrite Hint.
  cbn [births]. rewrite List.filter_app, <- Hnone. cbn [List.filter app].
  fold (row_of (last_rowid d + 1) now data).
  assert (Hrow : matches (BirthData.father_id data) (BirthData.mother_id data)
                   (row_of (last_rowid d + 1) now data) = true)
    by (apply matches_eq; now split).
  rewrite Hrow. reflexivity.
Qed.

End SubmitProperties.

Lemma search_finds_the_saved_row_witness :
  save_data library_str noon_1_march sample_data init_db
    = (inr (Message (py "تم حفظ البيانات بنجاح")),
       snd (save_data library_str noon_1_march sample_data init_db)) /\
  search_data library_str (BirthData.father_id sample_data)
    (BirthData.mother_id sample_data)
    (snd (save_data library_str noon_1_march sample_data init_db))
  = (inr (Data [row_of (last_rowid init_db + 1) noon_1_march sample_data]),
     snd (save_data library_str noon_1_march sample_data init_db)).
Proof.
  assert (H : save_data library_str noon_1_march sample_data init_db
              = (inr (Message (py "تم حفظ البيانات بنجاح")),
                 snd (save_data library_str noon_1_march sample_data
                                init_db)))
    by (vm_compute; reflexivity).
  split; [exact H|].
  exact (search_finds_the_saved_row library_str noon_1_march sample_data
           init_db _ _ H).
Defined.

(** ** Submissions, purges and searches together *)

Lemma fields_compare_trans (l1 l2 l3 : list Z) :
  fields_compare l1 l2 = Lt -> fields_compare l2 l3 = Lt ->
  length l1 = length l2 -> length l2 = length l3 ->
  fields_compare l1 l3 = Lt.
Proof.
  revert l2 l3. induction l1 as [|a l1 IH]; intros [|b l2] [|c l3];
    cbn [fields_compare length]; try discriminate.
  intros H12 H23 L12 L23.
  destruct (Z.compare_spec a b) as [->|Hab|Hab]; try discriminate.
  - destruct (Z.compare_spec b c) as [->|Hbc|Hbc]; try discriminate;
      [|reflexivity].
    apply (IH l2 l3); congruence || lia.
  - destruct (Z.compare_spec b c) as [->|Hbc|Hbc]; try discriminate.
    + destruct (Z.compare_spec a c); (reflexivity || lia).
    + destruct (Z.compare_spec a c); (reflexivity || lia).
Qed.

Lemma precedes_trans (a b c : datetime) :
  precedes a b -> precedes b c -> precedes a c.
Proof.
  unfold precedes, datetime_compare. intros H1 H2.
  now apply (fields_compare_trans (fields a) (fields b) (fields c)).
Qed.

Lemma precedes_irrefl (a : datetime) : ~ precedes a a.
Proof.
  unfold precedes, datetime_compare, fields. cbn [fields_compare].
  rewrite !Z.compare_refl. discriminate.
Qed.

(** A borrow that happens ends in an earlier month. *)
Lemma borrow_earlier (fuel : nat) :
  forall y m d y' m' d',
  d < 1 -> 1 <= m <= 12 ->
  borrow fuel y m d = Some (y', m', d') ->
  y' < y \/ (y' = y /\ m' < m).
Proof.
  induction fuel as [|fuel IH]; intros y m d y' m' d' Hd Hm;
    cbn [borrow]; destruct (Z.leb_spec 1 d) as [Hge|Hlt]; try lia;
    [discriminate|].
  intros H.
  destruct (Z.le_gt_cases 1
              (d + days_in_month (if m =? 1 then y - 1 else y)
                                 (if m =? 1 then 12 else m - 1)))
    as [Hdone|Hmore].
  - rewrite borrow_done in H by exact Hdone. injection H as <- <- <-.
    destruct (Z.eqb_spec m 1); lia.
  - apply IH in H; [|exact Hmore | destruct (Z.eqb_spec m 1); lia].
    destruct (Z.eqb_spec m 1); lia.
Qed.

(** The cutoff of a purge lies before its clock reading. *)
Lemma cutoff_precedes_now (now cutoff : datetime) :
  valid_datetime now = true -> minus_days now 30 = Some cutoff ->
  precedes cutoff now.
Proof.
  intros V. apply valid_datetime_bounds in V. unfold minus_days.
  destruct (borrow (Z.to_nat 30) (year now) (month now) (day now - 30))
    as [[[y m] d]|] eqn:E; [|discriminate].
  destruct (1 <=? y); [|discriminate]. intros [= <-].
  unfold precedes, datetime_compare, fields.
  cbn [fields_compare year month day hour minute second microsecond].
  destruct (Z.le_gt_cases 1 (day now - 30)) as [Hsame|Hborrow].
  - rewrite borrow_done in E by exact Hsame. injection E as <- <- <-.
    rewrite !Z.compare_refl.
    destruct (Z.compare_spec (day now - 30) (day now)); (reflexivity || lia).
  - apply borrow_earlier in E; [|lia | lia].
    destruct E as [Hy|[-> Hm]].
    + destruct (Z.compare_spec y (year now)); (reflexivity || lia).
    + rewrite Z.compare_refl.
      destruct (Z.compare_spec m (month now)); (reflexivity || lia).
Qed.

Section Composition.

Variable exc_str : exn -> pystr.

(** What a purge spares. A purge deletes no row stamped with its own
    clock reading or a later one: its cutoff lies thirty days before. So a
    submission that has just been saved is still found after a purge at the
    same clock reading. *)
Theorem purge_spares_fresh_rows (now t : datetime) (d : Database)
    (r : Row.t) :
  valid_datetime now = true -> 2 <= year now ->
  valid_datetime t = true -> ~ precedes t now ->
  In r (births d) -> Row.created_at r = isoformat t ->
  In r (births (snd (delete_old_entries exc_str now d))) /\
  (forall data d0 b,
     save_data exc_str now data d0 = (inr b, d) ->
     exists rows,
       search_data exc_str (BirthData.father_id data)
         (BirthData.mother_id data) (snd (delete_old_entries exc_str now d))
       = (inr (Data rows), snd (delete_old_entries exc_str now d)) /\
       In (row_of (last_rowid d0 + 1) now data) rows).
Proof.
  intros V Hy Vt Hfresh Hr Hstamp.
  destruct (minus_30_days now V Hy) as (cutoff & E & Vc).
  pose proof (cutoff_precedes_now now cutoff V E) as Hcut.
  assert (Hspare : forall r' t', valid_datetime t' = true ->
            ~ precedes t' now -> In r' (births d) ->
            Row.created_at r' = isoformat t' ->
            In r' (births (snd (delete_old_entries exc_str now d)))).
  { intros r' t' Vt' Hf' Hr' Hs'.
    rewrite (delete_old_entries_eq exc_str now cutoff d E).
    cbn [snd births]. apply filter_In. split; [exact Hr'|].
    unfold older_than. rewrite Hs'.
    destruct (text_ltb (isoformat t') (isoformat cutoff)) eqn:El;
      [|reflexivity].
    apply text_ltb_isoformat in El; [|assumption|assumption].
    exfalso. apply Hf'. now apply (precedes_trans t' cutoff now). }
  split; [now apply (Hspare r t)|].
  intros data d0 b Hok.
  destruct (save_data_success exc_str now data d0 d b Hok)
    as (_ & _ & Hsel & Hins).
  apply select_births_inr in Hsel as [Hint _].
  unfold insert_birth in Hins.
  destruct (last_rowid d0 =? max_rowid); [discriminate|].
  injection Hins as Hd.
  fold (row_of (last_rowid d0 + 1) now data) in Hd.
  set (row := row_of (last_rowid d0 + 1) now data) in *.
  assert (Hin : In row (births (snd (delete_old_entries exc_str now d)))).
  { apply (Hspare row now V (precedes_irrefl now)); [|reflexivity].
    rewrite <- Hd. cbn [births]. apply in_app_iff. right. now left. }
  unfold search_data, search_data_try, select_births. rewrite Hint.
  assert (Hfound : In row (List.filter
            (matches (BirthData.father_id data) (BirthData.mother_id data))
            (births (snd (delete_old_entries exc_str now d))))).
  { apply filter_In. split; [exact Hin|]. apply matches_eq. now split. }
  destruct (List.filter _ _) as [|r0 rows]; [destruct Hfound|].
  cbn [guarded]. eexists. split; [reflexivity | exact Hfound].
Qed.

End Composition.

Lemma purge_spares_fresh_rows_witness :
  In (row_of 1 noon_1_march sample_data)
     (births (snd (delete_old_entries library_str noon_1_march
                     (snd (save_data library_str noon_1_march sample_data
                                     init_db))))).
Proof.
  apply (proj1 (purge_spares_fresh_rows library_str noon_1_march noon_1_march
                  (snd (save_data library_str noon_1_march sample_data
                                  init_db))
                  (row_of 1 noon_1_march sample_data)
                  eq_refl ltac:(vm_compute; discriminate) eq_refl
                  (precedes_irrefl noon_1_march)
                  ltac:(vm_compute; left; reflexivity) eq_refl)).
Defined.

Section Resubmission.

Variable exc_str : exn -> pystr.

Lemma save_data_inserts (now : datetime) (data : BirthData.t)
    (d : Database) :
  pystr_in (BirthData.father_id_type data) id_types = true ->
  pystr_in (BirthData.mother_id_type data) id_types = true ->
  sqlite_int (BirthData.father_id data)
    && sqlite_int (BirthData.mother_id data) = true ->
  (forall r, In r (births d) ->
     matches (BirthData.father_id data) (BirthData.mother_id data) r
     = false) ->
  last_rowid d <> max_rowid ->
  save_data exc_str now data d
  = (inr (Message (py "تم حفظ البيانات بنجاح")),
     {| births := births d ++ [row_of (last_rowid d + 1) now data];
        sqlite_sequence := last_rowid d + 1 |}).
Proof.
  intros Tf Tm Hint Hnone Hfull.
  unfold save_data, save_data_try, save_data_check, save_data_insert,
    select_births, insert_birth.
  rewrite Tf, Tm, Hint. cbn [negb].
  rewrite (filter_none (matches _ _) (births d)) by exact Hnone.
  destruct (Z.eqb_spec (last_rowid d) max_rowid); [contradiction|].
  reflexivity.
Qed.

(** Submit, purge, submit again. Once the purge has deleted the row of a
    pair, the pair is free: a new submission of it succeeds, and its row gets
    the rowid after that of the deleted row, not the rowid of the deleted
    row. *)
Theorem a_purged_pair_can_be_submitted_again (now0 now now' : datetime)
    (data data' : BirthData.t) (d d1 : Database) (b : body) :
  store_ok d ->
  valid_datetime now0 = true -> valid_datetime now = true -> 2 <= year now ->
  save_data exc_str now0 data d = (inr b, d1) ->
  (forall cutoff, minus_days now 30 = Some cutoff -> precedes now0 cutoff) ->
  BirthData.father_id data' = BirthData.father_id data ->
  BirthData.mother_id data' = BirthData.mother_id data ->
  pystr_in (BirthData.father_id_type data') id_types = true ->
  pystr_in (BirthData.mother_id_type data') id_types = true ->
  sqlite_sequence d1 <> max_rowid ->
  let d2 := snd (delete_old_entries exc_str now d1) in
  In (row_of (sqlite_sequence d1) now0 data) (births d1) /\
  ~ In (row_of (sqlite_sequence d1) now0 data) (births d2) /\
  save_data exc_str now' data' d2
  = (inr (Message (py "تم حفظ البيانات بنجاح")),
     {| births := births d2 ++ [row_of (sqlite_sequence d1 + 1) now' data'];
        sqlite_sequence := sqlite_sequence d1 + 1 |}).
Proof.
  intros Hok V0 V Hy Hsave Hold Hf Hm Tf Tm Hroom d2.
  destruct (save_data_success exc_str now0 data d d1 b Hsave)
    as (_ & _ & Hsel & Hins).
  apply select_births_inr in Hsel as [Hint Hnone].
  pose proof (store_step_ok d d1 Hok
                (step_insert d _ _ _ _ _ _ d1 Hins)) as (Hok1 & _ & _).
  pose proof (store_step_ok d1 d2 Hok1
                (delete_old_entries_step exc_str now d1)) as (Hok2 & _ & _).
  apply insert_birth_inr in Hins as [_ Hd1].
  rewrite (last_rowid_bounded d (proj1 Hok)) in Hd1.
  fold (row_of (sqlite_sequence d + 1) now0 data) in Hd1.
  assert (Hseq : sqlite_sequence d1 = sqlite_sequence d + 1)
    by (rewrite Hd1; reflexivity).
  rewrite Hseq in *.
  set (row0 := row_of (sqlite_sequence d + 1) now0 data) in *.
  destruct (minus_30_days now V Hy) as (cutoff & E & Vc).
  assert (Hd2 : d2 = {| births := List.filter
                          (fun r => negb (older_than (isoformat cutoff) r))
                          (births d1);
                        sqlite_sequence := sqlite_sequence d1 |}).
  { unfold d2. now rewrite (delete_old_entries_eq exc_str now cutoff d1 E). }
  assert (Hrow0 : older_than (isoformat cutoff) row0 = true).
  { unfold older_than, row0, row_of. cbn [Row.created_at].
    apply text_ltb_isoformat; auto. }
  assert (Hbirths : births d2
            = List.filter (fun r => negb (older_than (isoformat cutoff) r))
                          (births d)).
  { rewrite Hd2, Hd1. cbn [births]. rewrite List.filter_app.
    cbn [List.filter]. rewrite Hrow0. cbn [negb]. apply app_nil_r. }
  split; [rewrite Hd1; cbn [births]; apply in_app_iff; right; now left|].
  split.
  - rewrite Hbirths. intros Hin. apply filter_In in Hin as [Hin _].
    apply (proj1 Hok) in Hin. unfold row0, row_of in Hin.
    cbn [Row.id] in Hin. lia.
  - assert (Hlast : last_rowid d2 = sqlite_sequence d + 1).
    { rewrite (last_rowid_bounded d2 (proj1 Hok2)), Hd2, Hd1. reflexivity. }
    rewrite <- Hlast.
    apply save_data_inserts; try assumption.
    + now rewrite Hf, Hm.
    + intros r Hr. rewrite Hbirths in Hr. apply filter_In in Hr as [Hr _].
      rewrite Hf, Hm.
      destruct (matches _ _ r) eqn:Em; [|reflexivity].
      assert (Hin : In r (List.filter
                (matches (BirthData.father_id data)
                         (BirthData.mother_id data)) (births d)))
        by (apply filter_In; now split).
      rewrite <- Hnone in Hin. destruct Hin.
    + rewrite Hlast. exact Hroom.
Qed.

End Resubmission.

Lemma a_purged_pair_can_be_submitted_again_witness :
  save_data library_str (at_time 2024 1 15 8 30 0 250000) sample_data init_db
    = (inr (Message (py "تم حفظ البيانات بنجاح")), sample_db) /\
  save_data library_str noon_1_march sample_data'
    (snd (delete_old_entries library_str noon_1_march sample_db))
  = (inr (Message (py "تم حفظ البيانات بنجاح")),
     {| births :=
          births (snd (delete_old_entries library_str noon_1_march sample_db))
          ++ [row_of (sqlite_sequence sample_db + 1) noon_1_march
                     sample_data'];
        sqlite_sequence := sqlite_sequence sample_db + 1 |}).
Proof.
  assert (H : save_data library_str (at_time 2024 1 15 8 30 0 250000)
                sample_data init_db
              = (inr (Message (py "تم حفظ البيانات بنجاح")), sample_db))
    by (vm_compute; reflexivity).
  assert (Hok : store_ok init_db) by (split; [intros r [] | constructor]).
  assert (Hold : forall cutoff, minus_days noon_1_march 30 = Some cutoff ->
                   precedes (at_time 2024 1 15 8 30 0 250000) cutoff).
  { intros cutoff E. vm_compute in E. injection E as <-.
    vm_compute. reflexivity. }
  assert (Hf : BirthData.father_id sample_data'
               = BirthData.father_id sample_data)
    by (vm_compute; reflexivity).
  assert (Hm : BirthData.mother_id sample_data'
               = BirthData.mother_id sample_data)
    by (vm_compute; reflexivity).
  assert (Tf : pystr_in (BirthData.father_id_type sample_data') id_types
               = true) by (vm_compute; reflexivity).
  assert (Tm : pystr_in (BirthData.mother_id_type sample_data') id_types
               = true) by (vm_compute; reflexivity).
  assert (Hroom : sqlite_sequence sample_db <> max_rowid)
    by (vm_compute; discriminate).
  split; [exact H|].
  exact (proj2 (proj2 (a_purged_pair_can_be_submitted_again library_str
           (at_time 2024 1 15 8 30 0 250000) noon_1_march noon_1_march
           sample_data sample_data' init_db sample_db _
           Hok eq_refl eq_refl ltac:(vm_compute; discriminate)
           H Hold Hf Hm Tf Tm Hroom))).
Defined.

(** ** The table and the validator *)

Lemma accepted_constraints (is_digit : char -> bool) (data : BirthData.t) :
  accepted is_digit data ->
  (2 <= length (BirthData.mother_name data) <= 100)%nat /\
  (2 <= length (BirthData.hospital_name data) <= 100)%nat /\
  lexical_date is_digit (BirthData.birth_date data).
Proof.
  intros [raw Hv].
  destruct (validate_cases is_digit raw)
    as [(e & He & _)|(data' & Hd & _ & _ & _ & _ & H5 & H6 & H7)];
    [congruence|].
  assert (data' = data) by congruence. subst data'.
  apply str_field_ok in H5 as [_ H5], H6 as [_ H6].
  apply pattern_field_ok in H7 as [_ H7].
  now repeat split.
Qed.

Section StoredRows.

Variable exc_str : exn -> pystr.
Variable is_digit : char -> bool.

(** I1. When the bodies of the submissions have all passed validation,
    every row of the table satisfies the constraints of the validator on the
    columns it has: the two names have 2 to 100 characters and the birth date
    has the shape [YYYY-MM-DD]. The handlers write the validated values
    unchanged and never rewrite a row. *)
Theorem stored_rows_meet_the_constraints (reqs : list (clock * request)) :
  List.Forall (fun cr => validated is_digit (snd cr)) reqs ->
  List.Forall (meets_constraints is_digit)
              (births (db (serve_all exc_str reqs new_app))).
Proof.
  assert (H : forall a,
    List.Forall (fun cr => validated is_digit (snd cr)) reqs ->
    List.Forall (meets_constraints is_digit) (births (db a)) ->
    List.Forall (meets_constraints is_digit)
                (births (db (serve_all exc_str reqs a)))).
  { induction reqs as [|[c req] reqs IH]; intros a Hv Hs; cbn [serve_all];
      [exact Hs|].
    apply List.Forall_cons_iff in Hv as [Hreq Hv]. cbn [snd] in Hreq.
    apply IH; [exact Hv|].
    destruct req as [|data| |f m].
    - cbn [serve]. unfold rate_limit. cbn [fst snd].
      destruct (check_rate _ _ _ _ _) as [[e|u] l]; cbn [snd db];
        [exact Hs|].
      unfold read_root. destruct (rendering c); exact Hs.
    - cbn [serve]. unfold rate_limit. cbn [fst snd].
      destruct (check_rate _ _ _ _ _) as [[e|u] l]; cbn [snd db];
        [exact Hs|].
      destruct (save_data exc_str (datetime_now c) data (db a))
        as [[e|b] d'] eqn:Es; cbn [snd db].
      + now rewrite (save_data_failure exc_str _ _ _ _ _ Es).
      + destruct (save_data_success exc_str _ _ _ _ _ Es)
          as (_ & _ & _ & Hins).
        apply insert_birth_inr in Hins as [_ ->]. cbn [births].
        apply List.Forall_app. split; [exact Hs|].
        apply List.Forall_cons; [|constructor].
        exact (accepted_constraints is_digit data Hreq).
    - cbn [serve]. unfold rate_limit. cbn [fst snd].
      destruct (check_rate _ _ _ _ _) as [[e|u] l]; cbn [snd db];
        [exact Hs|].
      destruct (delete_old_entries_db exc_str (datetime_now c) (db a))
        as [keep Hk].
      destruct (delete_old_entries exc_str (datetime_now c) (db a))
        as [r d']. cbn [snd db] in *. rewrite Hk.
      rewrite List.Forall_forall in *. intros x Hx.
      apply filter_In in Hx as [Hx _]. now apply Hs.
    - cbn [serve]. unfold rate_limit. cbn [fst snd].
      destruct (check_rate _ _ _ _ _) as [[e|u] l]; cbn [snd db];
        [exact Hs|].
      pose proof (search_data_step exc_str f m (db a)) as Hstep.
      destruct (search_data exc_str f m (db a)) as [r d'].
      cbn [snd db] in *. now subst d'. }
  intros Hv. apply H; [exact Hv | constructor].
Qed.

End StoredRows.

Lemma stored_rows_meet_the_constraints_witness :
  validate ascii_digit raw_sample = inr sample_data /\
  List.Forall (meets_constraints ascii_digit)
    (births (db (serve_all library_str
                   [(sample_clock, SaveData sample_data);
                    (sample_clock, SearchData 1001 2002)] new_app))).
Proof.
  assert (H : validate ascii_digit raw_sample = inr sample_data)
    by (vm_compute; reflexivity).
  split; [exact H|].
  apply (stored_rows_meet_the_constraints library_str ascii_digit).
  repeat constructor. cbn [snd validated]. now exists raw_sample.
Defined.

(** ** What a request leaves alone *)

Section Frame.

Variable exc_str : exn -> pystr.

(** A request counts against the limiter of its own endpoint and no other,
    and only submissions and purges can change the table: the landing page
    and a search leave it as it is, whatever they answer. *)
Theorem requests_touch_only_their_own_state (c : clock) (req : request)
    (a : App) :
  let a' := snd (serve exc_str c req a) in
  match req with
  | ReadRoot =>
    save_limiter a' = save_limiter a /\ delete_limiter a' = delete_limiter a
    /\ search_limiter a' = search_limiter a /\ db a' = db a
  | SaveData _ =>
    root_limiter a' = root_limiter a /\ delete_limiter a' = delete_limiter a
    /\ search_limiter a' = search_limiter a
  | DeleteOldEntries =>
    root_limiter a' = root_limiter a /\ save_limiter a' = save_limiter a
    /\ search_limiter a' = search_limiter a
  | SearchData _ _ =>
    root_limiter a' = root_limiter a /\ save_limiter a' = save_limiter a
    /\ delete_limiter a' = delete_limiter a /\ db a' = db a
  end.
Proof.
  destruct req as [|data| |f m]; cbn [serve]; unfold rate_limit;
    cbn [fst snd].
  - destruct (check_rate 100 60 "read_root" _ _) as [[e|u] l];
      [cbn; repeat split|].
    unfold read_root. destruct (rendering c); cbn; repeat split.
  - destruct (check_rate 10 60 "save_data" _ _) as [[e|u] l];
      [cbn; repeat split|].
    destruct (save_data exc_str (datetime_now c) data (db a)) as [r d'].
    cbn. repeat split.
  - destruct (check_rate 5 3600 "delete_old_entries" _ _) as [[e|u] l];
      [cbn; repeat split|].
    destruct (delete_old_entries exc_str (datetime_now c) (db a)) as [r d'].
    cbn. repeat split.
  - destruct (check_rate 20 60 "search_data" _ _) as [[e|u] l];
      [cbn; repeat split|].
    pose proof (search_data_step exc_str f m (db a)) as Hs.
    destruct (search_data exc_str f m (db a)) as [r d'].
    cbn in *. subst d'. repeat split.
Qed.

End Frame.

(** ** The limiters inside the application *)

Section AppLimiters.

Variable exc_str : exn -> pystr.

(** What a request does to the limiter of its endpoint is what [check_rate]
    does, with the limit, period and name of the endpoint. *)
Lemma serve_limiter (c : clock) (req : request) (a : App) :
  limiter_of req (snd (serve exc_str c req a))
  = snd (check_rate (limit_of req) (period_of req) (name_of req)
                    (time_time c) (limiter_of req a)).
Proof.
  destruct req as [|data| |f m];
    cbn [serve limit_of period_of name_of limiter_of];
    unfold rate_limit; cbn [fst snd].
  - destruct (check_rate 100 60 "read_root" _ _) as [[e|u] l];
      [reflexivity|].
    unfold read_root. now destruct (rendering c).
  - destruct (check_rate 10 60 "save_data" _ _) as [[e|u] l];
      [reflexivity|].
    now destruct (save_data exc_str (datetime_now c) data (db a)).
  - destruct (check_rate 5 3600 "delete_old_entries" _ _) as [[e|u] l];
      [reflexivity|].
    now destruct (delete_old_entries exc_str (datetime_now c) (db a)).
  - destruct (check_rate 20 60 "search_data" _ _) as [[e|u] l];
      [reflexivity|].
    now destruct (search_data exc_str f m (db a)).
Qed.

Lemma serve_other_limiters (c : clock) (req : request) (a : App) :
  (name_of req <> "read_root" ->
   root_limiter (snd (serve exc_str c req a)) = root_limiter a) /\
  (name_of req <> "save_data" ->
   save_limiter (snd (serve exc_str c req a)) = save_limiter a) /\
  (name_of req <> "delete_old_entries" ->
   delete_limiter (snd (serve exc_str c req a)) = delete_limiter a) /\
  (name_of req <> "search_data" ->
   search_limiter (snd (serve exc_str c req a)) = search_limiter a).
Proof.
  destruct req as [|data| |f m]; cbn [serve name_of]; unfold rate_limit;
    cbn [fst snd].
  - destruct (check_rate 100 60 "read_root" _ _) as [[e|u] l];
      [repeat split; intros; (reflexivity || congruence)|].
    unfold read_root. destruct (rendering c);
      repeat split; intros; (reflexivity || congruence).
  - destruct (check_rate 10 60 "save_data" _ _) as [[e|u] l];
      [repeat split; intros; (reflexivity || congruence)|].
    destruct (save_data exc_str (datetime_now c) data (db a)).
    repeat split; intros; (reflexivity || congruence).
  - destruct (check_rate 5 3600 "delete_old_entries" _ _) as [[e|u] l];
      [repeat split; intros; (reflexivity || congruence)|].
    destruct (delete_old_entries exc_str (datetime_now c) (db a)).
    repeat split; intros; (reflexivity || congruence).
  - destruct (check_rate 20 60 "search_data" _ _) as [[e|u] l];
      [repeat split; intros; (reflexivity || congruence)|].
    destruct (search_data exc_str f m (db a)).
    repeat split; intros; (reflexivity || congruence).
Qed.

Lemma serve_app_ok (c : clock) (req : request) (a : App) :
  app_ok a -> app_ok (snd (serve exc_str c req a)).
Proof.
  intros (H1 & H2 & H3 & H4).
  pose proof (serve_limiter c req a) as Hown.
  destruct (serve_other_limiters c req a) as (O1 & O2 & O3 & O4).
  unfold app_ok.
  destruct req as [|data| |f m];
    cbn [limit_of period_of name_of limiter_of] in *.
  - rewrite Hown, O2, O3, O4 by discriminate.
    repeat split; try assumption. now apply check_rate_ok.
  - rewrite Hown, O1, O3, O4 by discriminate.
    repeat split; try assumption. now apply check_rate_ok.
  - rewrite Hown, O1, O2, O4 by discriminate.
    repeat split; try assumption. now apply check_rate_ok.
  - rewrite Hown, O1, O2, O3 by discriminate.
    repeat split; try assumption. now apply check_rate_ok.
Qed.

Lemma serve_all_app_ok (reqs : list (clock * request)) (a : App) :
  app_ok a -> app_ok (serve_all exc_str reqs a).
Proof.
  revert a. induction reqs as [|[c req] reqs IH]; intros a Hok;
    cbn [serve_all]; [exact Hok|].
  apply IH. now apply serve_app_ok.
Qed.

Lemma new_app_ok : app_ok new_app.
Proof. repeat split; left; split; reflexivity. Qed.

Lemma serve_error_source (c : clock) (req : request) (a a' : App)
    (e : exn) :
  serve exc_str c req a = (inl e, a') ->
  fst (check_rate (limit_of req) (period_of req) (name_of req)
                  (time_time c) (limiter_of req a)) = inl e \/
  (exists e0, e = HTTPException 500 (exc_str e0)) \/
  (req = ReadRoot /\
   exists msg, rendering c = Some msg /\ e = TemplateError msg).
Proof.
  destruct req as [|data| |f m];
    cbn [serve limit_of period_of name_of limiter_of];
    unfold rate_limit; cbn [fst snd].
  - destruct (check_rate 100 60 "read_root" _ _) as [[e1|u] l].
    + intros [= <- _]. now left.
    + unfold read_root. destruct (rendering c) as [msg|]; [|discriminate].
      intros [= <- _]. right; right. split; [reflexivity|]. now exists msg.
  - destruct (check_rate 10 60 "save_data" _ _) as [[e1|u] l].
    + intros [= <- _]. now left.
    + unfold save_data.
      destruct (guarded exc_str _) as [r d'] eqn:Es. intros [= -> _].
      apply guarded_error in Es as (e0 & -> & _). right; left. now exists e0.
  - destruct (check_rate 5 3600 "delete_old_entries" _ _) as [[e1|u] l].
    + intros [= <- _]. now left.
    + unfold delete_old_entries.
      destruct (guarded exc_str _) as [r d'] eqn:Es. intros [= -> _].
      apply guarded_error in Es as (e0 & -> & _). right; left. now exists e0.
  - destruct (check_rate 20 60 "search_data" _ _) as [[e1|u] l].
    + intros [= <- _]. now left.
    + unfold search_data.
      destruct (guarded exc_str _) as [r d'] eqn:Es. intros [= -> _].
      apply guarded_error in Es as (e0 & -> & _). right; left. now exists e0.
Qed.

(** Over any history of requests served by a new application, the
    dictionaries of every limiter stay in step, so that the wrapper never
    fails with a [KeyError] of its own: an answer that is no success is the
    429 error of the limiter, the 500 error of a handler's [except] clause,
    or, for the landing page, whose handler has no [try] block, the exception
    that the template engine raised. *)
Theorem the_limiters_never_fail (reqs : list (clock * request))
    (c : clock) (req : request) (a' : App) (e : exn) :
  serve exc_str c req (serve_all exc_str reqs new_app) = (inl e, a') ->
  app_ok a' /\
  (e = too_many_requests \/
   (exists e0, e = HTTPException 500 (exc_str e0)) \/
   (req = ReadRoot /\
    exists msg, rendering c = Some msg /\ e = TemplateError msg)).
Proof.
  intros H.
  pose proof (serve_all_app_ok reqs new_app new_app_ok) as Hok.
  split.
  - pose proof (serve_app_ok c req _ Hok) as Hok'.
    now rewrite H in Hok'.
  - apply serve_error_source in H as [H|H]; [|now right].
    left.
    assert (Hl : limiter_ok (limit_of req) (name_of req)
                   (limiter_of req (serve_all exc_str reqs new_app))).
    { destruct Hok as (H1 & H2 & H3 & H4). now destruct req. }
    destruct (check_rate_ok (limit_of req) (period_of req) (name_of req)
                (time_time c) _ Hl) as ([Hr|Hr] & _); congruence.
Qed.

(** The accounting of the endpoints. A request that finds the counter of
    its endpoint at the limit, inside the window, is answered with the 429
    error and changes nothing at all: no limiter, no row. A request that
    finds the counter below the limit raises it by one, whatever the handler
    then answers: a submission refused as a duplicate is counted like one
    that is saved. *)
Theorem endpoint_accounting (c : clock) (req : request) (a : App)
    (t : float) (n : Z) :
  window (limiter_of req a) (name_of req) t n ->
  within (period_of req) t (time_time c) ->
  (limit_of req <= n ->
   serve exc_str c req a = (inl too_many_requests, a)) /\
  (n < limit_of req ->
   limiter_of req (snd (serve exc_str c req a))
   = count_call (name_of req) n (limiter_of req a)).
Proof.
  intros W Hin.
  assert (Hcr : check_rate (limit_of req) (period_of req) (name_of req)
                  (time_time c) (limiter_of req a)
                = if limit_of req <=? n
                  then (inl too_many_requests, limiter_of req a)
                  else (inr tt, count_call (name_of req) n
                                           (limiter_of req a))).
  { rewrite (check_rate_within _ _ _ _ t _ (proj1 W) Hin).
    apply (count_or_reject_window _ _ t n _ W). }
  split.
  - intros Hfull. destruct (Z.leb_spec (limit_of req) n); [|lia].
    destruct a as [lr ls ld lq d].
    destruct req as [|data| |f m];
      cbn [serve limit_of period_of name_of limiter_of root_limiter
           save_limiter delete_limiter search_limiter db] in *;
      unfold rate_limit; cbn [fst snd]; now rewrite Hcr.
  - intros Hroom. rewrite serve_limiter, Hcr.
    destruct (Z.leb_spec (limit_of req) n); [lia | reflexivity].
Qed.

End AppLimiters.

Lemma the_limiters_never_fail_witness :
  exists e a',
    serve library_str
          {| time_time := 0; datetime_now := noon_1_march;
             rendering := Some (py "index.html") |}
          ReadRoot (serve_all library_str [] new_app) = (inl e, a') /\
    app_ok a' /\ e = TemplateError (py "index.html").
Proof.
  destruct (serve library_str
              {| time_time := 0; datetime_now := noon_1_march;
                 rendering := Some (py "index.html") |}
              ReadRoot (serve_all library_str [] new_app))
    as [[e|b] a'] eqn:E.
  - exists e, a'. split; [reflexivity|]. split.
    + exact (proj1 (the_limiters_never_fail library_str [] _ ReadRoot
                      a' e E)).
    + vm_compute in E. injection E as <- _. vm_compute. reflexivity.
  - vm_compute in E. discriminate E.
Defined.

Lemma endpoint_accounting_witness :
  window (delete_limiter five_purges) "delete_old_entries" 0 5 /\
  within 3600 0 10 /\
  serve library_str ten_seconds_later DeleteOldEntries five_purges
    = (inl too_many_requests, five_purges).
Proof.
  assert (W : window (limiter_of DeleteOldEntries five_purges)
                (name_of DeleteOldEntries) 0 5)
    by (split; vm_compute; reflexivity).
  assert (Hin : within (period_of DeleteOldEntries) 0
                  (time_time ten_seconds_later))
    by (vm_compute; reflexivity).
  split; [exact W|]. split; [exact Hin|].
  exact (proj1 (endpoint_accounting library_str ten_seconds_later
                  DeleteOldEntries five_purges 0 5 W Hin)
           ltac:(vm_compute; discriminate)).
Defined.
